(** * Claude Code Assistant: the API client and the attachment store

    A shallow embedding of the two classes of the extension,
    [ClaudeAPI] and [ClaudeCodeAssistant], and the properties of the
    capability probe, the request error mapping, the attachment store
    and the composition of a chat turn.

    JavaScript values are modelled as follows: a [string | undefined]
    is an [option string]; a string read from an object literal, which may
    be a member of [Object.prototype] instead, is a [Js.value]; an array is
    a [list]; a [number] that the
    program only uses as an integer (HTTP status, token budget, image
    limit) is a [Z]; a [throw] is the [Throw] completion of [Js.completion];
    an awaited promise is its completion.  Each handler runs to completion
    on one event. *)

From Stdlib Require Import Ascii.
From stdpp Require Import base option list strings numbers pretty gmap.

Local Open Scope string_scope.
Local Open Scope list_scope.
Local Open Scope Z_scope.

(** ** JavaScript completions and the HTTP transport *)

Module Js.

(** [error.response], present when the server answered. *)
Record HttpResponse := { status : Z }.

(** A thrown value.  [new Error(msg)] has no [response]; an axios
    rejection has one when the server answered with a status code. *)
Record Error := { response : option HttpResponse; message : string }.

Definition new_Error (msg : string) : Error :=
  {| response := None; message := msg |}.

(** [error.response?.status] *)
Definition response_status (error : Error) : option Z :=
  status <$> response error.

(** The outcome of evaluating a function body (or of awaiting a promise). *)
Inductive completion (A : Type) : Type :=
| Normal (a : A)
| Throw (e : Error).
Global Arguments Normal {A} a.
Global Arguments Throw {A} e.

(** Truthiness of a string: only the empty string is falsy. *)
Definition truthy (s : string) : bool := bool_decide (s ≠ "").

(** [a || b] where [a] is an optional string. *)
Definition or_else (a : option string) (b : string) : string :=
  match a with
  | Some s => if truthy s then s else b
  | None => b
  end.

Definition LF : string := String "010"%char "".

(** The value of an expression that the source types [string].  It is a
    string, except where it was read from an object literal under a key
    the literal does not have but [Object.prototype] does: then it is that
    member of the prototype. *)
Inductive value : Type :=
| str (s : string)
| inherited (key : string).

Coercion str : string >-> value.

(** The keys of [Object.prototype]. *)
Definition Object_prototype : list string :=
  [ "constructor"; "__defineGetter__"; "__defineSetter__"; "hasOwnProperty";
    "__lookupGetter__"; "__lookupSetter__"; "isPrototypeOf";
    "propertyIsEnumerable"; "toString"; "valueOf"; "__proto__";
    "toLocaleString" ].

(** [o[key]] for an object literal [o] with string values: the own
    property, else the member of [Object.prototype], else [undefined]. *)
Definition get (o : gmap string string) (key : string) : option value :=
  match o !! key with
  | Some s => Some (str s)
  | None =>
      if bool_decide (key ∈ Object_prototype) then Some (inherited key) else None
  end.

(** [v || d]: the members of the prototype are objects, hence truthy. *)
Definition or_default (v : option value) (d : string) : value :=
  match v with
  | Some (str s) => if truthy s then str s else str d
  | Some (inherited key) => inherited key
  | None => str d
  end.

(** [String(v)], as V8 prints the members of [Object.prototype]. *)
Definition String_of (v : value) : string :=
  match v with
  | str s => s
  | inherited key =>
      if bool_decide (key = "__proto__") then "[object Object]"
      else if bool_decide (key = "constructor")
      then "function Object() { [native code] }"
      else "function " +:+ key +:+ "() { [native code] }"
  end.

(** The message of the TypeError V8 raises for [undefined.text]. *)
Definition TypeError_text : Error :=
  new_Error "Cannot read properties of undefined (reading 'text')".

End Js.

Import Js.

(** ** Data model *)

Module ImageSource.
(** [source: { type: 'base64', media_type, data }] *)
Record t := { media_type : Js.value; data : string }.
End ImageSource.

(** One element of an array-valued [content], discriminated by [type]. *)
Inductive ContentBlock :=
| text_block (text : string)
| image_block (source : ImageSource.t).

(** [content: string | Array<...>] *)
Inductive Content :=
| content_string (s : string)
| content_array (blocks : list ContentBlock).

Inductive Role := user | assistant.

Module ClaudeMessage.
Record t := { role : Role; content : Content }.
End ClaudeMessage.

Module AttachedFile.
Record t := {
  name : string;
  content : string;
  language : option Js.value;
  path : option string
}.
End AttachedFile.

Module AttachedImage.
Record t := { name : string; data : string; mediaType : Js.value }.
End AttachedImage.

Module ModelInfo.
Record t := { id : string; name : string; isPaid : bool }.
End ModelInfo.

(** ** The HTTP transport (axios) *)

Module Axios.

(** The body and the credential header of a POST to the messages endpoint. *)
Record Request := {
  model : string;
  max_tokens : Z;
  messages : list ClaudeMessage.t;
  x_api_key : string
}.

(** [response.data.content]: the text of each returned content block. *)
Record Response := { data_content : list string }.

(** What the remote end answers to each request. *)
Definition Network := Request → completion Response.

(** A computation that may post requests: its completion and the
    requests it issued, in order. *)
Definition Async (A : Type) : Type := Network → completion A * list Request.

Definition ret {A} (a : A) : Async A := λ _, (Normal a, []).

Definition throw {A} (e : Error) : Async A := λ _, (Throw e, []).

Definition bind {A B} (m : Async A) (k : A → Async B) : Async B :=
  λ net,
    match m net with
    | (Normal a, reqs) => let '(c, reqs') := k a net in (c, reqs ++ reqs')
    | (Throw e, reqs) => (Throw e, reqs)
    end.

(** [try { body } catch (error) { handler }] *)
Definition try_catch {A} (body : Async A) (handler : Error → Async A) : Async A :=
  λ net,
    match body net with
    | (Normal a, reqs) => (Normal a, reqs)
    | (Throw e, reqs) => let '(c, reqs') := handler e net in (c, reqs ++ reqs')
    end.

(** [await axios.post(url, body, { headers })] *)
Definition post (req : Request) : Async Response := λ net, (net req, [req]).

(** [response.data.content[0].text] *)
Definition first_text (response : Response) : Async string :=
  match data_content response with
  | text :: _ => ret text
  | [] => throw TypeError_text
  end.

End Axios.

Notation "'await' x ':=' m 'in' k" := (Axios.bind m (λ x, k))
  (at level 10, x name, m at level 100, k at level 200).

(** ** class ClaudeAPI *)

Module ClaudeAPI.

Import Axios.

Record t := { apiKey : string; model : string; maxTokens : Z }.

Definition availableModels : list ModelInfo.t := [
  {| ModelInfo.id := "claude-3-5-haiku-20241022"; ModelInfo.name := "Claude 3.5 Haiku"; ModelInfo.isPaid := false |};
  {| ModelInfo.id := "claude-3-haiku-20240307"; ModelInfo.name := "Claude 3 Haiku"; ModelInfo.isPaid := false |};
  {| ModelInfo.id := "claude-opus-4.1-20250805"; ModelInfo.name := "Claude Opus 4.1"; ModelInfo.isPaid := true |};
  {| ModelInfo.id := "claude-opus-4-20250514"; ModelInfo.name := "Claude Opus 4"; ModelInfo.isPaid := true |};
  {| ModelInfo.id := "claude-sonnet-4-20250514"; ModelInfo.name := "Claude Sonnet 4"; ModelInfo.isPaid := true |};
  {| ModelInfo.id := "claude-3-7-sonnet-20250219"; ModelInfo.name := "Claude 3.7 Sonnet"; ModelInfo.isPaid := true |};
  {| ModelInfo.id := "claude-3-5-sonnet-20241022"; ModelInfo.name := "Claude 3.5 Sonnet"; ModelInfo.isPaid := true |};
  {| ModelInfo.id := "claude-3-opus-20240229"; ModelInfo.name := "Claude 3 Opus"; ModelInfo.isPaid := true |};
  {| ModelInfo.id := "claude-3-sonnet-20240229"; ModelInfo.name := "Claude 3 Sonnet"; ModelInfo.isPaid := true |}
].

(** [this.availableModels.filter(m => !m.isPaid)] *)
Definition freeModels : list ModelInfo.t :=
  filter (λ m, ModelInfo.isPaid m = false) availableModels.

(** The request [checkApiKeyAccess] tests the key with. *)
Definition probeRequest (this : t) : Request :=
  {| Axios.model := "claude-3-5-haiku-20241022";
     max_tokens := 10;
     messages := [ {| ClaudeMessage.role := user;
                      ClaudeMessage.content := content_string "Hi" |} ];
     x_api_key := apiKey this |}.

Definition checkApiKeyAccess (this : t) : Async (list ModelInfo.t) :=
  if negb (truthy (apiKey this)) then ret freeModels
  else
    try_catch
      (await _ := post (probeRequest this) in
       ret availableModels)
      (λ error,
         if bool_decide (response_status error = Some 401)
         then ret freeModels
         else ret freeModels).

Definition getAvailableModels (this : t) : list ModelInfo.t := availableModels.

(** The request [sendMessage] posts once the key is known to be set. *)
Definition messageRequest (this : t) (messages : list ClaudeMessage.t)
    (selectedModel : option string) : Request :=
  {| Axios.model := or_else selectedModel (model this);
     max_tokens := maxTokens this;
     Axios.messages := messages;
     x_api_key := apiKey this |}.

Definition sendMessage (this : t) (messages : list ClaudeMessage.t)
    (selectedModel : option string) : Async string :=
  if negb (truthy (apiKey this))
  then throw (new_Error "API key not configured. Please set your Anthropic API key.")
  else
    try_catch
      (await response := post (messageRequest this messages selectedModel) in
       first_text response)
      (λ error,
         if bool_decide (response_status error = Some 401)
         then throw (new_Error "Invalid API key. Please check your Anthropic API key.")
         else if bool_decide (response_status error = Some 429)
         then throw (new_Error "Rate limit exceeded. Please try again later.")
         else if bool_decide (response_status error = Some 403)
         then throw (new_Error "Access denied. You may need a paid plan to use this model.")
         else throw (new_Error ("API Error: " +:+ message error))).

(** The failures of [sendMessage], named as the error taxonomy names them. *)
Definition ConfigurationError : Error :=
  new_Error "API key not configured. Please set your Anthropic API key.".
Definition AuthError : Error :=
  new_Error "Invalid API key. Please check your Anthropic API key.".
Definition ThrottledError : Error :=
  new_Error "Rate limit exceeded. Please try again later.".
Definition PlanRequiredError : Error :=
  new_Error "Access denied. You may need a paid plan to use this model.".
Definition TransportError (underlying : string) : Error :=
  new_Error ("API Error: " +:+ underlying).

(** The failure the catch clause of [sendMessage] turns a caught error into. *)
Definition sendFailure (error : Error) : Error :=
  if bool_decide (response_status error = Some 401) then AuthError
  else if bool_decide (response_status error = Some 429) then ThrottledError
  else if bool_decide (response_status error = Some 403) then PlanRequiredError
  else TransportError (message error).

End ClaudeAPI.

(** ** The host editor and Node's library, as the assistant consumes them *)

Module Node.
(** [path.basename], [path.extname] and [String.prototype.toLowerCase]:
    library functions of the platform, taken as they are. *)
Record t := {
  basename : string → string;
  extname : string → string;
  toLowerCase : string → string
}.
End Node.

Module TextEditor.
(** [editor.document]: [fileName], [languageId], [getText()] and
    [uri.scheme]. *)
Record t := {
  fileName : string;
  languageId : string;
  getText : string;
  scheme : string
}.
End TextEditor.

(** Messages posted to the chat webview. *)
Inductive Outbound :=
| updateAttachments (files : list (string * option string)) (images : list string)
| receiveMessage (text : string)
| receiveError (text : string)
| updateModels (models : list ModelInfo.t).

(** What a handler shows or posts, in order. *)
Inductive Effect :=
| showWarningMessage (msg : string)
| showErrorMessage (msg : string)
| postMessage (m : Outbound).

(** ** class ClaudeCodeAssistant *)

Module ClaudeCodeAssistant.

Record t := {
  claudeAPI : ClaudeAPI.t;
  attachedFiles : list AttachedFile.t;
  attachedImages : list AttachedImage.t;
  (** whether the chat panel is open ([chatPanel !== undefined]) *)
  chatPanel : bool;
  currentActiveFile : option string
}.

Definition set_attachedFiles (files : list AttachedFile.t) (this : t) : t :=
  {| claudeAPI := claudeAPI this; attachedFiles := files;
     attachedImages := attachedImages this; chatPanel := chatPanel this;
     currentActiveFile := currentActiveFile this |}.

Definition set_attachedImages (images : list AttachedImage.t) (this : t) : t :=
  {| claudeAPI := claudeAPI this; attachedFiles := attachedFiles this;
     attachedImages := images; chatPanel := chatPanel this;
     currentActiveFile := currentActiveFile this |}.

Definition set_currentActiveFile (file : option string) (this : t) : t :=
  {| claudeAPI := claudeAPI this; attachedFiles := attachedFiles this;
     attachedImages := attachedImages this; chatPanel := chatPanel this;
     currentActiveFile := file |}.

(** The assistant as its constructor leaves it. *)
Definition new (api : ClaudeAPI.t) : t :=
  {| claudeAPI := api; attachedFiles := []; attachedImages := [];
     chatPanel := false; currentActiveFile := None |}.

Definition updateChatAttachments (this : t) : list Effect :=
  if chatPanel this then
    [ postMessage (updateAttachments
        ((λ f, (AttachedFile.name f, AttachedFile.path f)) <$> attachedFiles this)
        (AttachedImage.name <$> attachedImages this)) ]
  else [].

Definition langMap : gmap string string :=
  list_to_map [
    (".js", "javascript"); (".ts", "typescript"); (".py", "python");
    (".java", "java"); (".cpp", "cpp"); (".c", "c"); (".cs", "csharp");
    (".php", "php"); (".rb", "ruby"); (".go", "go"); (".rs", "rust");
    (".swift", "swift"); (".json", "json"); (".xml", "xml");
    (".yaml", "yaml"); (".yml", "yaml"); (".md", "markdown") ].

(** [langMap[ext] || 'text'] *)
Definition getLanguageFromExtension (ext : string) : Js.value :=
  or_default (Js.get langMap ext) "text".

Definition mediaMap : gmap string string :=
  list_to_map [
    (".png", "image/png"); (".jpg", "image/jpeg"); (".jpeg", "image/jpeg");
    (".gif", "image/gif"); (".webp", "image/webp") ].

(** [mediaMap[ext] || 'image/jpeg'] *)
Definition getMediaType (ext : string) : Js.value :=
  or_default (Js.get mediaMap ext) "image/jpeg".

Section Handlers.

Variable node : Node.t.

(** The entry [attachCurrentFile] pushes for a document. *)
Definition fileOfEditor (editor : TextEditor.t) : AttachedFile.t :=
  {| AttachedFile.name := Node.basename node (TextEditor.fileName editor);
     AttachedFile.content := TextEditor.getText editor;
     AttachedFile.language := Some (str (TextEditor.languageId editor));
     AttachedFile.path := Some (TextEditor.fileName editor) |}.

Definition attachCurrentFile (editor : TextEditor.t) (this : t) : t * list Effect :=
  let filePath := TextEditor.fileName editor in
  (* Don't attach if it's the same file *)
  if bool_decide (currentActiveFile this = Some filePath) then (this, [])
  else
    (* Remove previous auto-attached file *)
    let this :=
      set_attachedFiles
        (filter (λ f, AttachedFile.path f ≠ currentActiveFile this) (attachedFiles this))
        this in
    (* Add new file *)
    let this := set_attachedFiles (attachedFiles this ++ [fileOfEditor editor]) this in
    let this := set_currentActiveFile (Some filePath) this in
    (* Update chat UI if open *)
    (this, if chatPanel this then updateChatAttachments this else []).

(** The callback [setupFileWatcher] registers for
    [onDidChangeActiveTextEditor]; [autoAttach] is the configuration
    option [autoAttachFile] read at the event. *)
Definition onDidChangeActiveTextEditor (autoAttach : bool)
    (editor : option TextEditor.t) (this : t) : t * list Effect :=
  match editor with
  | Some editor =>
      if autoAttach && bool_decide (TextEditor.scheme editor = "file")
      then attachCurrentFile editor this
      else (this, [])
  | None => (this, [])
  end.

(** [fileUri && fileUri[0]], then [fileUri[0].fsPath] *)
Definition chosen (fileUri : option (list string)) : option string :=
  match fileUri with
  | Some (uri :: _) => Some uri
  | _ => None
  end.

(** [fileUri] is what [showOpenDialog] resolved to; [readFileSync] is
    [fs.readFileSync(_, 'utf-8')] on the file system of the moment. *)
Definition handleFileAttachment (fileUri : option (list string))
    (readFileSync : string → completion string) (this : t) : t * list Effect :=
  match chosen fileUri with
  | Some filePath =>
      let fileName := Node.basename node filePath in
      match readFileSync filePath with
      | Normal content =>
          let language := getLanguageFromExtension (Node.extname node fileName) in
          (* Check if file already attached *)
          if bool_decide (Exists (λ f, AttachedFile.path f = Some filePath) (attachedFiles this))
          then (this, [showWarningMessage "File already attached"])
          else
            let this :=
              set_attachedFiles
                (attachedFiles this ++
                   [ {| AttachedFile.name := fileName;
                        AttachedFile.content := content;
                        AttachedFile.language := Some language;
                        AttachedFile.path := Some filePath |} ])
                this in
            (this, updateChatAttachments this)
      | Throw _ => (this, [showErrorMessage "Failed to read file"])
      end
  | None => (this, [])
  end.

(** [maxImages] is the configuration option read at the call;
    [readFileSync] is [fs.readFileSync(_).toString('base64')]. *)
Definition handleImageAttachment (maxImages : Z) (fileUri : option (list string))
    (readFileSync : string → completion string) (this : t) : t * list Effect :=
  if bool_decide (maxImages ≤ Z.of_nat (length (attachedImages this)))
  then (this, [showWarningMessage ("Maximum " +:+ pretty maxImages +:+ " images allowed")])
  else
    match chosen fileUri with
    | Some filePath =>
        let fileName := Node.basename node filePath in
        let extension := Node.toLowerCase node (Node.extname node fileName) in
        let mediaType := getMediaType extension in
        match readFileSync filePath with
        | Normal data =>
            let this :=
              set_attachedImages
                (attachedImages this ++
                   [ {| AttachedImage.name := fileName;
                        AttachedImage.data := data;
                        AttachedImage.mediaType := mediaType |} ])
                this in
            (this, updateChatAttachments this)
        | Throw _ => (this, [showErrorMessage "Failed to read image"])
        end
    | None => (this, [])
    end.

End Handlers.

Definition removeAttachedFile (filePath : string) (this : t) : t * list Effect :=
  let this :=
    set_attachedFiles
      (filter (λ f, AttachedFile.path f ≠ Some filePath) (attachedFiles this)) this in
  let this :=
    if bool_decide (currentActiveFile this = Some filePath)
    then set_currentActiveFile None this
    else this in
  (this, updateChatAttachments this).

Definition removeAttachedImage (imageName : string) (this : t) : t * list Effect :=
  let this :=
    set_attachedImages
      (filter (λ i, AttachedImage.name i ≠ imageName) (attachedImages this)) this in
  (this, updateChatAttachments this).

(** [${v}] in a template literal, for an optional string. *)
Definition interpolate (v : option Js.value) : string :=
  match v with
  | Some v => String_of v
  | None => "undefined"
  end.

(** What the loop of [handleChatMessage] appends to [fileContext] for one file. *)
Definition fileEntry (file : AttachedFile.t) : string :=
  LF +:+ "**" +:+ AttachedFile.name file +:+ "** ("
     +:+ interpolate (AttachedFile.language file) +:+ "):" +:+ LF
     +:+ "```" +:+ interpolate (AttachedFile.language file) +:+ LF
     +:+ AttachedFile.content file +:+ LF
     +:+ "```" +:+ LF.

(** [text] after the attached files' context has been added to it. *)
Definition augmentedText (text : string) (this : t) : string :=
  if bool_decide (0 < length (attachedFiles this))%nat then
    let fileContext :=
      fold_left (λ fileContext file, fileContext +:+ fileEntry file)
        (attachedFiles this)
        (LF +:+ LF +:+ "**Attached Files:**" +:+ LF) in
    text +:+ fileContext
  else text.

Definition imageBlock (img : AttachedImage.t) : ContentBlock :=
  image_block {| ImageSource.media_type := AttachedImage.mediaType img;
                 ImageSource.data := AttachedImage.data img |}.

(** The [content] that [handleChatMessage] builds for the user turn. *)
Definition chatContent (text : string) (this : t) : Content :=
  let text := augmentedText text this in
  (* Add images if any *)
  if bool_decide (0 < length (attachedImages this))%nat then
    content_array (text_block text :: (imageBlock <$> attachedImages this))
  else content_string text.

(** [this.chatPanel?.webview.postMessage(m)] *)
Definition postToPanel (this : t) (m : Outbound) : list Effect :=
  if chatPanel this then [postMessage m] else [].

Definition handleChatMessage (text selectedModel : string) (this : t)
    : Axios.Async (list Effect) :=
  Axios.try_catch
    (let content := chatContent text this in
     let messages :=
       [ {| ClaudeMessage.role := user; ClaudeMessage.content := content |} ] in
     await response := ClaudeAPI.sendMessage (claudeAPI this) messages (Some selectedModel) in
     Axios.ret (postToPanel this (receiveMessage response)))
    (λ error, Axios.ret (postToPanel this (receiveError (message error)))).

(** *** Events that reach the attachment store

    The focus change of the editor and the webview commands
    [attachFile], [attachImage], [removeFile] and [removeImage], each with
    what the host answers during the handler. *)
Inductive Event :=
| didChangeActiveTextEditor (autoAttachFile : bool) (editor : option TextEditor.t)
| attachFile (fileUri : option (list string)) (readFileSync : string → completion string)
| attachImage (maxImages : Z) (fileUri : option (list string))
    (readFileSync : string → completion string)
| removeFile (path : string)
| removeImage (name : string).

Definition handle (node : Node.t) (ev : Event) (this : t) : t * list Effect :=
  match ev with
  | didChangeActiveTextEditor autoAttach editor =>
      onDidChangeActiveTextEditor node autoAttach editor this
  | attachFile fileUri readFileSync =>
      handleFileAttachment node fileUri readFileSync this
  | attachImage maxImages fileUri readFileSync =>
      handleImageAttachment node maxImages fileUri readFileSync this
  | removeFile path => removeAttachedFile path this
  | removeImage name => removeAttachedImage name this
  end.

(** The store after a sequence of events, handled one at a time. *)
Definition run (node : Node.t) (evs : list Event) (this : t) : t :=
  fold_left (λ this ev, fst (handle node ev this)) evs this.

(** The paths of the attached files, in order. *)
Definition paths (this : t) : list (option string) :=
  AttachedFile.path <$> attachedFiles this.

(** The tracked auto-attached file, when there is one, is in the store. *)
Definition tracked_attached (this : t) : Prop :=
  ∀ filePath, currentActiveFile this = Some filePath → Some filePath ∈ paths this.

(** The event reads [limit] for the option [maxImages], if it reads it. *)
Definition reads_maxImages (limit : Z) (ev : Event) : Prop :=
  match ev with
  | attachImage maxImages _ _ => maxImages = limit
  | _ => True
  end.

(** The event is a command of the webview, not a focus change. *)
Definition is_command (ev : Event) : Prop :=
  match ev with
  | didChangeActiveTextEditor _ _ => False
  | _ => True
  end.

End ClaudeCodeAssistant.

(** ** Sample inputs *)

Module Sample.

Definition posix : Node.t :=
  {| Node.basename := λ p, if bool_decide (p = "/work/a.py") then "a.py"
                           else if bool_decide (p = "/work/b.ts") then "b.ts"
                           else if bool_decide (p = "/pics/logo.png") then "logo.png"
                           else if bool_decide (p = "/old/logo.png") then "logo.png"
                           else p;
     Node.extname := λ p, if bool_decide (p = "a.py") then ".py"
                          else if bool_decide (p = "b.ts") then ".ts"
                          else if bool_decide (p = "logo.png") then ".png"
                          else "";
     Node.toLowerCase := λ s, s |}.

Definition keyed : ClaudeAPI.t :=
  {| ClaudeAPI.apiKey := "sk-ant-test";
     ClaudeAPI.model := "claude-3-5-haiku-20241022";
     ClaudeAPI.maxTokens := 200000 |}.

Definition unkeyed : ClaudeAPI.t :=
  {| ClaudeAPI.apiKey := "";
     ClaudeAPI.model := "claude-3-5-haiku-20241022";
     ClaudeAPI.maxTokens := 200000 |}.

(** A server that answers every request with the given status. *)
Definition rejecting (code : Z) : Axios.Network :=
  λ _, Throw {| response := Some {| status := code |};
                message := "Request failed with status code " +:+ pretty code |}.

Definition answering (text : string) : Axios.Network :=
  λ _, Normal {| Axios.data_content := [text] |}.

Definition a_py : TextEditor.t :=
  {| TextEditor.fileName := "/work/a.py"; TextEditor.languageId := "python";
     TextEditor.getText := "print(1)"; TextEditor.scheme := "file" |}.

Definition b_ts : TextEditor.t :=
  {| TextEditor.fileName := "/work/b.ts"; TextEditor.languageId := "typescript";
     TextEditor.getText := "let x = 1"; TextEditor.scheme := "file" |}.

(** A file system on which every read succeeds with the same bytes. *)
Definition disk (bytes : string) : string → completion string := λ _, Normal bytes.

Definition logo : AttachedImage.t :=
  {| AttachedImage.name := "logo.png"; AttachedImage.data := "iVBORw0KGgo=";
     AttachedImage.mediaType := "image/png" |}.

(** The store after the editor focused [a_py]. *)
Definition focused_a : ClaudeCodeAssistant.t :=
  ClaudeCodeAssistant.run posix
    [ClaudeCodeAssistant.didChangeActiveTextEditor true (Some a_py)]
    (ClaudeCodeAssistant.new keyed).

(** The store after [/pics/logo.png] was attached. *)
Definition with_logo : ClaudeCodeAssistant.t :=
  ClaudeCodeAssistant.run posix
    [ClaudeCodeAssistant.attachImage 3 (Some ["/pics/logo.png"]) (disk "iVBORw0KGgo=")]
    (ClaudeCodeAssistant.new keyed).

(** The store after [/work/a.py] was attached by hand. *)
Definition with_a : ClaudeCodeAssistant.t :=
  ClaudeCodeAssistant.run posix
    [ClaudeCodeAssistant.attachFile (Some ["/work/a.py"]) (disk "print(1)")]
    (ClaudeCodeAssistant.new keyed).

End Sample.

(** ** The rest of the extension: configuration, commands and the chat panel *)

Module WorkspaceConfiguration.

(** The values the settings of [claude-assistant] have for the extension;
    [None] where a setting has no value. *)
Record t := {
  apiKey : option string;
  model : option string;
  maxTokens : option Z;
  autoAttachFile : option bool;
  maxImages : option Z
}.

(** [config.get(key, defaultValue)] *)
Definition get {A} (value : option A) (defaultValue : A) : A :=
  default defaultValue value.

End WorkspaceConfiguration.

Module JsString.

(** [s.substring(indexStart, indexEnd)]: both indices are clamped to
    [0 .. s.length], an omitted end is the length, and the two are swapped
    when the start is the larger one.  A string is the sequence of its
    characters. *)
Definition substring (s : string) (indexStart : Z) (indexEnd : option Z) : string :=
  let clamp (i : Z) := Z.to_nat (Z.min (Z.max i 0) (Z.of_nat (String.length s))) in
  let first := clamp indexStart in
  let last := match indexEnd with Some e => clamp e | None => String.length s end in
  String.string_of_list_ascii
    (take (Nat.max first last - Nat.min first last)
       (drop (Nat.min first last) (String.list_ascii_of_string s))).

End JsString.

(** What the commands and the panel do to the editor window, in order. *)
Inductive HostEffect :=
| ui (e : Effect)
| showInputBox (placeHolder : string)
| updateSetting (key value : string)
| showInformationMessage (msg : string)
| reveal
| createWebviewPanel
| setHtml (models : list ModelInfo.t)
| withProgress (title : string)
| showResponse (title content : string)
| unhandledRejection (error : Error).

Module ActiveEditor.
(** [vscode.window.activeTextEditor]: its document's [languageId] and
    [document.getText(editor.selection)]. *)
Record t := { languageId : string; selectedText : string }.
End ActiveEditor.

Module Extension.

Import Axios.

(** [ClaudeAPI.updateConfig] of the current extension. *)
Definition updateConfig (config : WorkspaceConfiguration.t) : ClaudeAPI.t :=
  {| ClaudeAPI.apiKey :=
       WorkspaceConfiguration.get (WorkspaceConfiguration.apiKey config) "";
     ClaudeAPI.model :=
       WorkspaceConfiguration.get (WorkspaceConfiguration.model config)
         "claude-3-5-haiku-20241022";
     ClaudeAPI.maxTokens :=
       WorkspaceConfiguration.get (WorkspaceConfiguration.maxTokens config) 200000 |}.

Definition set_claudeAPI (api : ClaudeAPI.t) (this : ClaudeCodeAssistant.t)
    : ClaudeCodeAssistant.t :=
  {| ClaudeCodeAssistant.claudeAPI := api;
     ClaudeCodeAssistant.attachedFiles := ClaudeCodeAssistant.attachedFiles this;
     ClaudeCodeAssistant.attachedImages := ClaudeCodeAssistant.attachedImages this;
     ClaudeCodeAssistant.chatPanel := ClaudeCodeAssistant.chatPanel this;
     ClaudeCodeAssistant.currentActiveFile := ClaudeCodeAssistant.currentActiveFile this |}.

Definition set_chatPanel (panel : bool) (this : ClaudeCodeAssistant.t)
    : ClaudeCodeAssistant.t :=
  {| ClaudeCodeAssistant.claudeAPI := ClaudeCodeAssistant.claudeAPI this;
     ClaudeCodeAssistant.attachedFiles := ClaudeCodeAssistant.attachedFiles this;
     ClaudeCodeAssistant.attachedImages := ClaudeCodeAssistant.attachedImages this;
     ClaudeCodeAssistant.chatPanel := panel;
     ClaudeCodeAssistant.currentActiveFile := ClaudeCodeAssistant.currentActiveFile this |}.

(** *** explainCode, optimizeCode, addComments, debugCode

    The four commands have one body, up to the title of the progress
    notification, the instruction around the language in the prompt and the
    title of the response panel. *)

(** The prompt of a command: the instruction, then the selection in a fence. *)
Definition prompt (before after language selectedText : string) : string :=
  before +:+ language +:+ after +:+ LF +:+ LF
    +:+ "```" +:+ language +:+ LF +:+ selectedText +:+ LF +:+ "```".

(** A promise that nobody awaits: when it is rejected, the rejection stays
    unhandled and nothing is thrown to the code that created it. *)
Definition detached (task : Async (list HostEffect)) : Async (list HostEffect) :=
  λ net,
    match task net with
    | (Normal done, reqs) => (Normal done, reqs)
    | (Throw error, reqs) => (Normal [unhandledRejection error], reqs)
    end.

(** [withProgress] starts the task and hands back its promise, which the
    command does not await. *)
Definition promptCommand (progressTitle before after responseTitle : string)
    (activeTextEditor : option ActiveEditor.t) (this : ClaudeCodeAssistant.t)
    : Async (list HostEffect) :=
  match activeTextEditor with
  | None => ret [ui (showErrorMessage "No active editor found")]
  | Some editor =>
      let selectedText := ActiveEditor.selectedText editor in
      if negb (truthy selectedText)
      then ret [ui (showErrorMessage "No code selected")]
      else
        let language := ActiveEditor.languageId editor in
        try_catch
          (await done :=
             detached
               (let messages :=
                  [ {| ClaudeMessage.role := user;
                       ClaudeMessage.content :=
                         content_string (prompt before after language selectedText) |} ] in
                await response :=
                  ClaudeAPI.sendMessage (ClaudeCodeAssistant.claudeAPI this) messages None in
                ret [showResponse responseTitle response]) in
           ret (withProgress progressTitle :: done))
          (λ error, ret [ui (showErrorMessage (message error))])
  end.

Definition explainCode :=
  promptCommand "Claude is analyzing your code..."
    "Please explain this " " code:" "Code Explanation".

Definition optimizeCode :=
  promptCommand "Claude is optimizing your code..."
    "Please optimize this "
    " code for better performance, readability, and best practices:"
    "Code Optimization".

Definition addComments :=
  promptCommand "Claude is adding comments..."
    "Please add helpful comments to this " " code to explain what it does:"
    "Commented Code".

Definition debugCode :=
  promptCommand "Claude is analyzing for bugs..."
    "Please analyze this " " code for potential bugs, issues, or improvements:"
    "Debug Analysis".

Definition promptCommands :=
  [explainCode; optimizeCode; addComments; debugCode].

(** *** openApiKeyChanger *)

(** The key as the placeholder of the input box shows it. *)
Definition maskedKey (currentKey : string) : string :=
  if truthy currentKey then
    JsString.substring currentKey 0 (Some 8) +:+ "..."
      +:+ JsString.substring currentKey (Z.of_nat (String.length currentKey) - 4) None
  else "Not set".

(** The callback registered with [onDidDispose]. *)
Definition onDidDispose (this : ClaudeCodeAssistant.t) : ClaudeCodeAssistant.t :=
  set_chatPanel false this.

(** The TypeError V8 raises for [undefined.webview]. *)
Definition TypeError_webview : Error :=
  new_Error "Cannot read properties of undefined (reading 'webview')".

(** [currentKey] is the setting when the command starts, [newKey] what the
    input box resolves to, [reloaded] the configuration that [updateConfig]
    reads once the update of the setting has resolved, [this] the assistant
    at that moment, and [disposed] whether the panel is disposed while the
    request of the probe is pending; a probe that posts no request leaves no
    room for that.  The result is the assistant and the effects at the end of
    the call, and how the call completes. *)
Definition openApiKeyChanger (currentKey : string) (newKey : option string)
    (reloaded : WorkspaceConfiguration.t) (disposed : bool)
    (this : ClaudeCodeAssistant.t)
    : Async (ClaudeCodeAssistant.t * list HostEffect * completion unit) :=
  let asked := showInputBox ("Current: " +:+ maskedKey currentKey) in
  match newKey with
  | Some newKey =>
      let this := set_claudeAPI (updateConfig reloaded) this in
      let shown :=
        [ asked; updateSetting "apiKey" newKey;
          showInformationMessage "API key updated successfully" ] in
      (* Update available models in chat if open *)
      if ClaudeCodeAssistant.chatPanel this then
        await models := ClaudeAPI.checkApiKeyAccess (ClaudeCodeAssistant.claudeAPI this) in
        (* [this.chatPanel.webview]: the field is read again, without [?.] *)
        if disposed && truthy (ClaudeAPI.apiKey (ClaudeCodeAssistant.claudeAPI this))
        then ret (onDidDispose this, shown, Throw TypeError_webview)
        else ret (this, shown ++ [ui (postMessage (updateModels models))], Normal ())
      else ret (this, shown, Normal ())
  | None => ret (this, [asked], Normal ())
  end.

(** *** The chat panel *)

(** What the host answers while a message of the webview is handled;
    [closed] is whether the panel is disposed while the input box of the key
    changer is open, [disposed] whether it is disposed while the handler
    awaits the file dialog or a request. *)
Record Answers := {
  maxImages : Z;
  fileUri : option (list string);
  readFileSync : string → completion string;
  currentKey : string;
  newKey : option string;
  reloaded : WorkspaceConfiguration.t;
  closed : bool;
  disposed : bool
}.

(** A message of the webview; a field is read only under the command that
    carries it. *)
Record Message := {
  command : string;
  text : string;
  model : string;
  path : string;
  name : string
}.

Definition lift (r : ClaudeCodeAssistant.t * list Effect)
    : Async (ClaudeCodeAssistant.t * list HostEffect * completion unit) :=
  ret (r.1, ui <$> r.2, Normal ()).

(** The assistant a handler finds after its await: the panel is gone when
    it was disposed meanwhile, which takes that the handler does await. *)
Definition resumed (host : Answers) (awaits : bool) (this : ClaudeCodeAssistant.t)
    : ClaudeCodeAssistant.t :=
  if disposed host && awaits then onDidDispose this else this.

(** The handler [openChat] registers with [onDidReceiveMessage].  The
    handlers read [chatPanel] after their await of the dialog or of the
    request, if they make one. *)
Definition onDidReceiveMessage (node : Node.t) (host : Answers) (message : Message)
    (this : ClaudeCodeAssistant.t)
    : Async (ClaudeCodeAssistant.t * list HostEffect * completion unit) :=
  let keyed := truthy (ClaudeAPI.apiKey (ClaudeCodeAssistant.claudeAPI this)) in
  if bool_decide (command message = "sendMessage") then
    let this := resumed host keyed this in
    await posted :=
      ClaudeCodeAssistant.handleChatMessage (text message) (model message) this in
    ret (this, ui <$> posted, Normal ())
  else if bool_decide (command message = "attachFile") then
    lift (ClaudeCodeAssistant.handleFileAttachment node
            (fileUri host) (readFileSync host) (resumed host true this))
  else if bool_decide (command message = "attachImage") then
    let room :=
      bool_decide
        (Z.of_nat (length (ClaudeCodeAssistant.attachedImages this)) < maxImages host) in
    lift (ClaudeCodeAssistant.handleImageAttachment node
            (maxImages host) (fileUri host) (readFileSync host)
            (resumed host room this))
  else if bool_decide (command message = "removeFile") then
    lift (ClaudeCodeAssistant.removeAttachedFile (path message) this)
  else if bool_decide (command message = "removeImage") then
    lift (ClaudeCodeAssistant.removeAttachedImage (name message) this)
  else if bool_decide (command message = "openApiKeyChanger") then
    openApiKeyChanger (currentKey host) (newKey host) (reloaded host)
      (disposed host) (if closed host then onDidDispose this else this)
  else if bool_decide (command message = "refreshModels") then
    await updatedModels :=
      ClaudeAPI.checkApiKeyAccess (ClaudeCodeAssistant.claudeAPI this) in
    let this := resumed host keyed this in
    ret (this,
         ui <$> ClaudeCodeAssistant.postToPanel this (updateModels updatedModels),
         Normal ())
  else ret (this, [], Normal ()).

Definition openChat (this : ClaudeCodeAssistant.t)
    : Async (ClaudeCodeAssistant.t * list HostEffect) :=
  if ClaudeCodeAssistant.chatPanel this then ret (this, [reveal])
  else
    let this := set_chatPanel true this in
    await models := ClaudeAPI.checkApiKeyAccess (ClaudeCodeAssistant.claudeAPI this) in
    (* Send initial attachments *)
    ret (this,
         [createWebviewPanel; setHtml models]
           ++ (ui <$> ClaudeCodeAssistant.updateChatAttachments this)).

(** The attachments of a store, as [updateChatAttachments] posts them. *)
Definition attachments (this : ClaudeCodeAssistant.t) : Outbound :=
  updateAttachments
    ((λ f, (AttachedFile.name f, AttachedFile.path f))
       <$> ClaudeCodeAssistant.attachedFiles this)
    (AttachedImage.name <$> ClaudeCodeAssistant.attachedImages this).

(** The media types in the table of [getMediaType]. *)
Definition mediaTypes : list string :=
  ["image/png"; "image/jpeg"; "image/gif"; "image/webp"].

(** What [path.extname] returns: the empty string, or a string that
    starts with a dot. *)
Definition is_extension (ext : string) : Prop :=
  ext = "" ∨ ∃ rest, ext = String "."%char rest.

(** The node keeps the contract of [path.extname], and its [toLowerCase]
    keeps the shape of an extension. *)
Definition conforming (node : Node.t) : Prop :=
  (∀ p, is_extension (Node.extname node p)) ∧
  (∀ ext, is_extension ext → is_extension (Node.toLowerCase node ext)).

(** The value is a string, and one of the media types of the table. *)
Definition is_media_type (v : Js.value) : Prop :=
  ∃ mediaType, v = str mediaType ∧ mediaType ∈ mediaTypes.

(** The event is a focus change. *)
Definition is_focus (ev : ClaudeCodeAssistant.Event) : Prop :=
  match ev with
  | ClaudeCodeAssistant.didChangeActiveTextEditor _ _ => True
  | _ => False
  end.

(** The entry has a path and a language. *)
Definition complete (f : AttachedFile.t) : Prop :=
  is_Some (AttachedFile.path f) ∧ is_Some (AttachedFile.language f).

(** The commands of the webview that only the store serves. *)
Definition storeCommands : list string :=
  ["attachFile"; "attachImage"; "removeFile"; "removeImage"].

(** The commands the handler of the panel has a case for. *)
Definition commands : list string :=
  storeCommands ++ ["sendMessage"; "openApiKeyChanger"; "refreshModels"].

(** The files, the images and the tracked file of two stores are the same. *)
Definition same_attachments (this that : ClaudeCodeAssistant.t) : Prop :=
  ClaudeCodeAssistant.attachedFiles this = ClaudeCodeAssistant.attachedFiles that ∧
  ClaudeCodeAssistant.attachedImages this = ClaudeCodeAssistant.attachedImages that ∧
  ClaudeCodeAssistant.currentActiveFile this = ClaudeCodeAssistant.currentActiveFile that.

End Extension.

(** ** The first version of the extension ([extension.ts]) *)

Module Legacy.

Import Axios.

(** [ClaudeMessage] of the first version: the content is a string. *)
Record ClaudeMessage := { role : Role; content : string }.

Definition updateConfig (config : WorkspaceConfiguration.t) : ClaudeAPI.t :=
  {| ClaudeAPI.apiKey :=
       WorkspaceConfiguration.get (WorkspaceConfiguration.apiKey config) "";
     ClaudeAPI.model :=
       WorkspaceConfiguration.get (WorkspaceConfiguration.model config)
         "claude-sonnet-4-20250514";
     ClaudeAPI.maxTokens :=
       WorkspaceConfiguration.get (WorkspaceConfiguration.maxTokens config) 4000 |}.

Definition messageRequest (this : ClaudeAPI.t) (messages : list ClaudeMessage)
    : Request :=
  {| Axios.model := ClaudeAPI.model this;
     max_tokens := ClaudeAPI.maxTokens this;
     Axios.messages :=
       (λ m, {| ClaudeMessage.role := role m;
                ClaudeMessage.content := content_string (content m) |}) <$> messages;
     x_api_key := ClaudeAPI.apiKey this |}.

Definition sendMessage (this : ClaudeAPI.t) (messages : list ClaudeMessage)
    : Async string :=
  if negb (truthy (ClaudeAPI.apiKey this))
  then throw (new_Error
                "API key not configured. Please set your Anthropic API key in settings.")
  else
    try_catch
      (await response := post (messageRequest this messages) in
       first_text response)
      (λ error,
         if bool_decide (response_status error = Some 401)
         then throw (new_Error
                       "Invalid API key. Please check your Anthropic API key in settings.")
         else if bool_decide (response_status error = Some 429)
         then throw (new_Error "Rate limit exceeded. Please try again later.")
         else throw (new_Error ("API Error: " +:+ message error))).

(** The handler of the chat panel: [command] and [text] of the message. *)
Definition onDidReceiveMessage (this : ClaudeAPI.t) (command text : string)
    : Async (list Effect) :=
  if bool_decide (command = "sendMessage") then
    try_catch
      (let messages := [ {| role := user; content := text |} ] in
       await response := sendMessage this messages in
       ret [postMessage (receiveMessage response)])
      (λ error, ret [postMessage (receiveError (message error))])
  else ret [].

End Legacy.

(** ** More sample inputs *)

Module Scenario.

(** The store after [/work/a.py] was attached by hand and then focused. *)
Definition doubled : ClaudeCodeAssistant.t :=
  ClaudeCodeAssistant.run Sample.posix
    [ ClaudeCodeAssistant.attachFile (Some ["/work/a.py"]) (Sample.disk "print(1)");
      ClaudeCodeAssistant.didChangeActiveTextEditor true (Some Sample.a_py) ]
    (ClaudeCodeAssistant.new Sample.keyed).

(** The store after two images named [logo.png] were attached. *)
Definition two_logos : ClaudeCodeAssistant.t :=
  ClaudeCodeAssistant.run Sample.posix
    [ ClaudeCodeAssistant.attachImage 3 (Some ["/pics/logo.png"]) (Sample.disk "iVBORw0KGgo=");
      ClaudeCodeAssistant.attachImage 3 (Some ["/old/logo.png"]) (Sample.disk "R0lGODlh") ]
    (ClaudeCodeAssistant.new Sample.keyed).

(** The fresh assistant with the chat panel open. *)
Definition chatting : ClaudeCodeAssistant.t :=
  Extension.set_chatPanel true (ClaudeCodeAssistant.new Sample.keyed).

(** A file system on which every read fails. *)
Definition unreadable : string → completion string :=
  λ _, Throw (new_Error "EACCES: permission denied").

Definition selection : ActiveEditor.t :=
  {| ActiveEditor.languageId := "python"; ActiveEditor.selectedText := "x = 1" |}.

(** A configuration in which only the key is set. *)
Definition only_key : WorkspaceConfiguration.t :=
  {| WorkspaceConfiguration.apiKey := Some "sk-ant-test";
     WorkspaceConfiguration.model := None;
     WorkspaceConfiguration.maxTokens := None;
     WorkspaceConfiguration.autoAttachFile := None;
     WorkspaceConfiguration.maxImages := None |}.

Definition answers : Extension.Answers :=
  {| Extension.maxImages := 3;
     Extension.fileUri := None;
     Extension.readFileSync := unreadable;
     Extension.currentKey := "sk-ant-test";
     Extension.newKey := None;
     Extension.reloaded := only_key;
     Extension.closed := false;
     Extension.disposed := false |}.

(** The host while the key is changed and the panel closed meanwhile. *)
Definition closing : Extension.Answers :=
  {| Extension.maxImages := 3;
     Extension.fileUri := None;
     Extension.readFileSync := unreadable;
     Extension.currentKey := "";
     Extension.newKey := Some "sk-ant-test";
     Extension.reloaded := only_key;
     Extension.closed := false;
     Extension.disposed := true |}.

Definition changeKey : Extension.Message :=
  {| Extension.command := "openApiKeyChanger"; Extension.text := "";
     Extension.model := ""; Extension.path := ""; Extension.name := "" |}.

(** A store with the same image twice. *)
Definition twins : ClaudeCodeAssistant.t :=
  ClaudeCodeAssistant.set_attachedImages [Sample.logo; Sample.logo]
    (ClaudeCodeAssistant.new Sample.keyed).

(** The store after a file and two images were attached. *)
Definition illustrated : ClaudeCodeAssistant.t :=
  ClaudeCodeAssistant.run Sample.posix
    [ ClaudeCodeAssistant.attachFile (Some ["/work/a.py"]) (Sample.disk "print(1)");
      ClaudeCodeAssistant.attachImage 3 (Some ["/pics/logo.png"]) (Sample.disk "iVBORw0KGgo=");
      ClaudeCodeAssistant.attachImage 3 (Some ["/old/logo.png"]) (Sample.disk "R0lGODlh") ]
    (ClaudeCodeAssistant.new Sample.keyed).

(** A message whose command the panel does not know. *)
Definition ping : Extension.Message :=
  {| Extension.command := "ping"; Extension.text := ""; Extension.model := "";
     Extension.path := ""; Extension.name := "" |}.

End Scenario.

(** * Properties *)

(** Membership of a closed term in a closed list. *)
Ltac by_evaluation := by repeat constructor.

(** The closed lists a hypothesis of membership ranges over, case by case. *)
Ltac not_among Hin :=
  repeat (apply elem_of_cons in Hin as [Hin|Hin]; [done|]);
  by apply elem_of_nil in Hin.

(** ** The API client *)

Section ApiClient.

Import Axios ClaudeAPI.

Implicit Types (this : ClaudeAPI.t) (net : Network).

Lemma truthy_true (s : string) : truthy s = true ↔ s ≠ "".
Proof. unfold truthy. by rewrite bool_decide_eq_true. Qed.

Lemma truthy_false (s : string) : truthy s = false ↔ s = "".
Proof.
  unfold truthy. rewrite bool_decide_eq_false.
  split; [|by intros -> ?].
  intros Hnn. by destruct (decide (s = "")).
Qed.

Lemma freeModels_eq :
  freeModels =
    [ {| ModelInfo.id := "claude-3-5-haiku-20241022";
         ModelInfo.name := "Claude 3.5 Haiku"; ModelInfo.isPaid := false |};
      {| ModelInfo.id := "claude-3-haiku-20240307";
         ModelInfo.name := "Claude 3 Haiku"; ModelInfo.isPaid := false |} ].
Proof. reflexivity. Qed.

(** With a key set, the probe posts exactly one request and its answer
    alone decides the result. *)
Lemma checkApiKeyAccess_with_key this net :
  apiKey this ≠ "" →
  checkApiKeyAccess this net =
    (Normal (match net (probeRequest this) with
             | Normal _ => availableModels
             | Throw _ => freeModels
             end),
     [probeRequest this]).
Proof.
  intros Hkey%truthy_true. unfold checkApiKeyAccess. rewrite Hkey. simpl.
  unfold try_catch, bind, post, ret.
  destruct (net (probeRequest this)) as [resp|error]; [done|].
  by case_bool_decide.
Qed.

Lemma checkApiKeyAccess_without_key this net :
  apiKey this = "" →
  checkApiKeyAccess this net = (Normal freeModels, []).
Proof.
  intros Hkey%truthy_false. unfold checkApiKeyAccess. by rewrite Hkey.
Qed.

(** C2: [checkApiKeyAccess] never throws; with a key set it returns the
    whole catalog when the probe request succeeds, and the free models (2
    of the 9 catalog entries) when the request fails with status 401 or
    fails in any other way. *)
Theorem checkApiKeyAccess_classifies this net :
  (∃ models, (checkApiKeyAccess this net).1 = Normal models) ∧
  (apiKey this ≠ "" →
     (∀ response, net (probeRequest this) = Normal response →
        (checkApiKeyAccess this net).1 = Normal availableModels) ∧
     (∀ error, net (probeRequest this) = Throw error →
        response_status error = Some 401 →
        (checkApiKeyAccess this net).1 = Normal freeModels) ∧
     (∀ error, net (probeRequest this) = Throw error →
        response_status error ≠ Some 401 →
        (checkApiKeyAccess this net).1 = Normal freeModels)) ∧
  length availableModels = 9%nat ∧
  length freeModels = 2%nat ∧
  (∀ m, m ∈ freeModels ↔ m ∈ availableModels ∧ ModelInfo.isPaid m = false).
Proof.
  split_and!.
  - destruct (decide (apiKey this = "")) as [Hkey|Hkey].
    + rewrite checkApiKeyAccess_without_key by done. by eexists.
    + rewrite checkApiKeyAccess_with_key by done. by eexists.
  - intros Hkey. rewrite checkApiKeyAccess_with_key by done. simpl.
    split_and!; by intros ? ->.
  - reflexivity.
  - reflexivity.
  - intros m. unfold freeModels. rewrite list_elem_of_filter. tauto.
Qed.

(** C10: with the empty key [checkApiKeyAccess] returns the free models,
    which are the two Haiku entries of the catalog and all its entries that
    are not paid, does not throw and posts nothing; whatever request it posts
    is the probe, and it is posted exactly when a key is set. *)
Theorem checkApiKeyAccess_no_key this net :
  (apiKey this = "" → checkApiKeyAccess this net = (Normal freeModels, [])) ∧
  (∀ req, req ∈ (checkApiKeyAccess this net).2 →
     apiKey this ≠ "" ∧ req = probeRequest this) ∧
  (apiKey this ≠ "" → (checkApiKeyAccess this net).2 = [probeRequest this]) ∧
  (apiKey this = "" →
     checkApiKeyAccess this net =
       (Normal
          [ {| ModelInfo.id := "claude-3-5-haiku-20241022";
               ModelInfo.name := "Claude 3.5 Haiku"; ModelInfo.isPaid := false |};
            {| ModelInfo.id := "claude-3-haiku-20240307";
               ModelInfo.name := "Claude 3 Haiku"; ModelInfo.isPaid := false |} ],
        [])) ∧
  (∀ m, m ∈ freeModels ↔ m ∈ availableModels ∧ ModelInfo.isPaid m = false) ∧
  length availableModels = 9%nat.
Proof.
  split_and!.
  - apply checkApiKeyAccess_without_key.
  - intros req. destruct (decide (apiKey this = "")) as [Hkey|Hkey].
    + rewrite checkApiKeyAccess_without_key by done. simpl.
      by intros ?%elem_of_nil.
    + rewrite checkApiKeyAccess_with_key by done. simpl.
      by intros ->%list_elem_of_singleton.
  - intros Hkey. by rewrite checkApiKeyAccess_with_key.
  - intros Hkey. by rewrite checkApiKeyAccess_without_key, freeModels_eq.
  - intros m. unfold freeModels. rewrite list_elem_of_filter. tauto.
  - reflexivity.
Qed.

Lemma sendMessage_with_key this messages selectedModel net :
  apiKey this ≠ "" →
  sendMessage this messages selectedModel net =
    (match net (messageRequest this messages selectedModel) with
     | Normal response =>
         match data_content response with
         | text :: _ => Normal text
         | [] => Throw (sendFailure TypeError_text)
         end
     | Throw error => Throw (sendFailure error)
     end,
     [messageRequest this messages selectedModel]).
Proof.
  intros Hkey%truthy_true. unfold sendMessage. rewrite Hkey. simpl.
  unfold try_catch, bind, post, first_text, sendFailure.
  destruct (net _) as [[[|text texts]]|error]; simpl; [|done|].
  - by repeat case_bool_decide.
  - by repeat case_bool_decide.
Qed.

Lemma sendMessage_without_key this messages selectedModel net :
  apiKey this = "" →
  sendMessage this messages selectedModel net = (Throw ConfigurationError, []).
Proof. intros Hkey%truthy_false. unfold sendMessage. by rewrite Hkey. Qed.

(** C3: with no key [sendMessage] throws the configuration error and
    posts nothing; with a key, a request that fails with status 401, 429
    or 403 throws the authentication, throttling or plan error, and any
    other failure (another status, no response at all, or a response
    without a first content block) throws the transport error carrying
    the message of the failure. *)
Theorem sendMessage_failure_mapping this messages selectedModel net :
  let req := messageRequest this messages selectedModel in
  let result := sendMessage this messages selectedModel net in
  (apiKey this = "" → result = (Throw ConfigurationError, [])) ∧
  (apiKey this ≠ "" →
     result.2 = [req] ∧
     (∀ error, net req = Throw error →
        (response_status error = Some 401 → result.1 = Throw AuthError) ∧
        (response_status error = Some 429 → result.1 = Throw ThrottledError) ∧
        (response_status error = Some 403 → result.1 = Throw PlanRequiredError) ∧
        (response_status error ∉ [Some 401; Some 429; Some 403] →
           result.1 = Throw (TransportError (message error)))) ∧
     (∀ response, net req = Normal response → data_content response = [] →
        result.1 = Throw (TransportError (message TypeError_text))) ∧
     (∀ response text texts, net req = Normal response →
        data_content response = text :: texts → result.1 = Normal text)) ∧
  NoDup [ConfigurationError; AuthError; ThrottledError; PlanRequiredError] ∧
  (∀ underlying,
     TransportError underlying ∉
       [ConfigurationError; AuthError; ThrottledError; PlanRequiredError]).
Proof.
  intros req result. subst req result. split_and!.
  - apply sendMessage_without_key.
  - intros Hkey. rewrite sendMessage_with_key by done. simpl.
    split_and!; [done| |by intros ? -> ->|by intros ? ? ? -> ->].
    intros error ->. unfold sendFailure. split_and!.
    + intros ->. by rewrite bool_decide_eq_true_2.
    + intros ->. by repeat case_bool_decide.
    + intros ->. by repeat case_bool_decide.
    + rewrite !not_elem_of_cons. intros (? & ? & ? & _).
      by rewrite !bool_decide_eq_false_2.
  - repeat (apply NoDup_cons; split;
      [rewrite ?not_elem_of_cons; split_and?;
       try (by intros [=]); by intros ?%elem_of_nil|]).
    apply NoDup_nil_2.
  - intros underlying. rewrite !not_elem_of_cons.
    split_and!; [by intros [=]..|by intros ?%elem_of_nil].
Qed.

End ApiClient.

(** ** The attachment store *)

Section AttachmentStore.

Import ClaudeCodeAssistant.

Variable node : Node.t.

Implicit Types (this : ClaudeCodeAssistant.t) (editor : TextEditor.t)
  (files : list AttachedFile.t) (images : list AttachedImage.t).

Lemma filter_all {A} (P : A → Prop) `{!∀ x, Decision (P x)} (l : list A) :
  (∀ x, x ∈ l → P x) → filter P l = l.
Proof.
  induction l as [|x l IH]; intros Hall; [done|].
  rewrite filter_cons_True by (apply Hall; left).
  f_equal. apply IH. intros y Hy. apply Hall. by right.
Qed.

Lemma filter_twice {A} (P : A → Prop) `{!∀ x, Decision (P x)} (l : list A) :
  filter P (filter P l) = filter P l.
Proof. apply filter_all. by intros x [? _]%list_elem_of_filter. Qed.

Lemma NoDup_fmap_filter {A B} (f : A → B) (P : A → Prop)
    `{!∀ x, Decision (P x)} (l : list A) :
  NoDup (f <$> l) → NoDup (f <$> filter P l).
Proof.
  intros Hnodup. eapply sublist_NoDup; [done|].
  apply fmap_sublist, sublist_filter.
Qed.

Lemma path_attached filePath files :
  Exists (λ f, AttachedFile.path f = Some filePath) files
  ↔ Some filePath ∈ AttachedFile.path <$> files.
Proof.
  rewrite Exists_exists, list_elem_of_fmap.
  split; intros (f & H1 & H2); by exists f.
Qed.

Lemma set_attachedFiles_id this : set_attachedFiles (attachedFiles this) this = this.
Proof. by destruct this. Qed.

(** *** attachCurrentFile *)

Lemma attachCurrentFile_same editor this :
  currentActiveFile this = Some (TextEditor.fileName editor) →
  attachCurrentFile node editor this = (this, []).
Proof.
  intros Hsame. unfold attachCurrentFile. by rewrite bool_decide_eq_true_2.
Qed.

Lemma attachCurrentFile_other editor this :
  currentActiveFile this ≠ Some (TextEditor.fileName editor) →
  (attachCurrentFile node editor this).1 =
    {| claudeAPI := claudeAPI this;
       attachedFiles :=
         filter (λ f, AttachedFile.path f ≠ currentActiveFile this) (attachedFiles this)
           ++ [fileOfEditor node editor];
       attachedImages := attachedImages this;
       chatPanel := chatPanel this;
       currentActiveFile := Some (TextEditor.fileName editor) |}.
Proof.
  intros Hother. unfold attachCurrentFile. by rewrite bool_decide_eq_false_2.
Qed.

Lemma attachCurrentFile_tracks editor this :
  currentActiveFile (attachCurrentFile node editor this).1
  = Some (TextEditor.fileName editor).
Proof.
  destruct (decide (currentActiveFile this = Some (TextEditor.fileName editor)))
    as [Hsame|Hother].
  - by rewrite attachCurrentFile_same.
  - by rewrite attachCurrentFile_other.
Qed.

(** C6: [attachCurrentFile] on the tracked document changes nothing, so a
    second call on the same document is a no-op; on another document it
    drops the entries whose path is the tracked one, pushes an entry made
    of the document's text, language and path, and tracks the document. *)
Theorem attachCurrentFile_spec editor this :
  let filePath := TextEditor.fileName editor in
  let this' := (attachCurrentFile node editor this).1 in
  (currentActiveFile this = Some filePath →
     attachCurrentFile node editor this = (this, [])) ∧
  (∀ editor', TextEditor.fileName editor' = filePath →
     attachCurrentFile node editor' this' = (this', [])) ∧
  (currentActiveFile this ≠ Some filePath →
     attachedFiles this' =
       filter (λ f, AttachedFile.path f ≠ currentActiveFile this) (attachedFiles this)
         ++ [fileOfEditor node editor] ∧
     (currentActiveFile this ∉ paths this') ∧
     (∀ f, f ∈ attachedFiles this → AttachedFile.path f ≠ currentActiveFile this →
        f ∈ attachedFiles this') ∧
     AttachedFile.content (fileOfEditor node editor) = TextEditor.getText editor ∧
     AttachedFile.language (fileOfEditor node editor)
       = Some (str (TextEditor.languageId editor)) ∧
     AttachedFile.path (fileOfEditor node editor) = Some filePath ∧
     AttachedFile.name (fileOfEditor node editor) = Node.basename node filePath ∧
     currentActiveFile this' = Some filePath ∧
     attachedImages this' = attachedImages this).
Proof.
  intros filePath this'. subst filePath this'. split_and!.
  - apply attachCurrentFile_same.
  - intros editor' Hsame. apply attachCurrentFile_same.
    rewrite Hsame. apply attachCurrentFile_tracks.
  - intros Hother. rewrite attachCurrentFile_other by done. simpl.
    split_and!; try done.
    + unfold paths. simpl. rewrite fmap_app, elem_of_app, list_elem_of_fmap.
      simpl. rewrite list_elem_of_singleton.
      intros [(f & Hpath & [Hkeep _]%list_elem_of_filter)|Hnew]; congruence.
    + intros f Hf Hkeep. rewrite elem_of_app, list_elem_of_filter. by left.
Qed.

(** *** handleFileAttachment *)

Lemma handleFileAttachment_attached fileUri readFileSync filePath content this :
  ClaudeCodeAssistant.chosen fileUri = Some filePath →
  readFileSync filePath = Normal content →
  Some filePath ∈ paths this →
  handleFileAttachment node fileUri readFileSync this
  = (this, [showWarningMessage "File already attached"]).
Proof.
  intros Huri Hread Hin. unfold handleFileAttachment. rewrite Huri, Hread.
  by rewrite bool_decide_eq_true_2 by by apply path_attached.
Qed.

Lemma handleFileAttachment_new fileUri readFileSync filePath content this :
  ClaudeCodeAssistant.chosen fileUri = Some filePath →
  readFileSync filePath = Normal content →
  Some filePath ∉ paths this →
  let this' := (handleFileAttachment node fileUri readFileSync this).1 in
  attachedFiles this' =
    attachedFiles this ++
      [ {| AttachedFile.name := Node.basename node filePath;
           AttachedFile.content := content;
           AttachedFile.language :=
             Some (getLanguageFromExtension
                     (Node.extname node (Node.basename node filePath)));
           AttachedFile.path := Some filePath |} ] ∧
  currentActiveFile this' = currentActiveFile this ∧
  attachedImages this' = attachedImages this ∧
  (handleFileAttachment node fileUri readFileSync this).2 = updateChatAttachments this'.
Proof.
  intros Huri Hread Hnotin. unfold handleFileAttachment. rewrite Huri, Hread.
  by rewrite bool_decide_eq_false_2 by by rewrite path_attached.
Qed.

Lemma handleFileAttachment_paths fileUri readFileSync this :
  paths (handleFileAttachment node fileUri readFileSync this).1 = paths this ∨
  ∃ filePath, (Some filePath ∉ paths this) ∧
    paths (handleFileAttachment node fileUri readFileSync this).1
    = paths this ++ [Some filePath].
Proof.
  unfold handleFileAttachment.
  destruct (ClaudeCodeAssistant.chosen fileUri) as [filePath|]; [|by left].
  destruct (readFileSync filePath) as [content|]; [|by left].
  case_bool_decide as Hin; [by left|]. right. exists filePath.
  rewrite path_attached in Hin. split; [done|].
  unfold paths. simpl. by rewrite fmap_app.
Qed.

Lemma handleFileAttachment_NoDup fileUri readFileSync this :
  NoDup (paths this) →
  NoDup (paths (handleFileAttachment node fileUri readFileSync this).1).
Proof.
  intros Hnodup.
  destruct (handleFileAttachment_paths fileUri readFileSync this)
    as [->|(filePath & Hnotin & ->)]; [done|].
  apply NoDup_app. split_and!; [done| |apply NoDup_singleton].
  intros p Hp ->%list_elem_of_singleton. done.
Qed.

Lemma removeAttachedFile_NoDup filePath this :
  NoDup (paths this) → NoDup (paths (removeAttachedFile filePath this).1).
Proof.
  intros Hnodup. unfold removeAttachedFile, paths. simpl.
  case_bool_decide; simpl; by apply NoDup_fmap_filter.
Qed.

(** The commands of the webview alone keep the paths of the store distinct. *)
Lemma commands_NoDup evs this :
  Forall is_command evs → NoDup (paths this) → NoDup (paths (run node evs this)).
Proof.
  intros Hevs. revert this.
  induction Hevs as [|ev evs Hev _ IH]; intros this Hnodup; [done|].
  apply IH. destruct ev; simpl in *; try done.
  - by apply handleFileAttachment_NoDup.
  - unfold handleImageAttachment.
    case_bool_decide; [done|]. by repeat case_match.
  - by apply removeAttachedFile_NoDup.
Qed.

(** C1: a focus change onto a file that was attached by hand leaves two
    entries with that file's path in the store. *)
Theorem attachCurrentFile_duplicates_manual (api : ClaudeAPI.t) :
  let evs :=
    [ attachFile (Some ["/work/a.py"]) (Sample.disk "print(1)");
      didChangeActiveTextEditor true (Some Sample.a_py) ] in
  paths (run node evs (new api)) = [Some "/work/a.py"; Some "/work/a.py"] ∧
  ¬ NoDup (paths (run node evs (new api))).
Proof.
  intros evs.
  assert (paths (run node evs (new api)) = [Some "/work/a.py"; Some "/work/a.py"])
    as Hpaths by reflexivity.
  split; [done|]. rewrite Hpaths.
  intros [Hnotin _]%NoDup_cons. apply Hnotin. left.
Qed.

(** *** handleImageAttachment *)

Lemma handleImageAttachment_full maxImages fileUri readFileSync this :
  maxImages ≤ Z.of_nat (length (attachedImages this)) →
  handleImageAttachment node maxImages fileUri readFileSync this
  = (this, [showWarningMessage ("Maximum " +:+ pretty maxImages +:+ " images allowed")]).
Proof.
  intros Hfull. unfold handleImageAttachment. by rewrite bool_decide_eq_true_2.
Qed.

Lemma handleImageAttachment_room maxImages fileUri readFileSync filePath data this :
  Z.of_nat (length (attachedImages this)) < maxImages →
  ClaudeCodeAssistant.chosen fileUri = Some filePath →
  readFileSync filePath = Normal data →
  let added :=
    {| AttachedImage.name := Node.basename node filePath;
       AttachedImage.data := data;
       AttachedImage.mediaType :=
         getMediaType
           (Node.toLowerCase node (Node.extname node (Node.basename node filePath))) |} in
  let this' := set_attachedImages (attachedImages this ++ [added]) this in
  handleImageAttachment node maxImages fileUri readFileSync this
  = (this', updateChatAttachments this').
Proof.
  intros Hroom Huri Hread. unfold handleImageAttachment.
  rewrite bool_decide_eq_false_2 by lia. by rewrite Huri, Hread.
Qed.

Lemma handle_images_bound limit ev this :
  reads_maxImages limit ev →
  Z.of_nat (length (attachedImages this)) ≤ Z.max 0 limit →
  Z.of_nat (length (attachedImages (handle node ev this).1)) ≤ Z.max 0 limit.
Proof.
  intros Hev Hbound. destruct ev as [autoAttach [editor|]| | | |]; simpl in *.
  - destruct (autoAttach && _); [|done].
    destruct (decide (currentActiveFile this = Some (TextEditor.fileName editor))).
    + by rewrite attachCurrentFile_same.
    + by rewrite attachCurrentFile_other.
  - done.
  - unfold handleFileAttachment. repeat case_match; try done.
  - subst maxImages. unfold handleImageAttachment.
    case_bool_decide as Hfull; [done|].
    repeat case_match; try done. simpl. rewrite length_app. simpl. lia.
  - unfold removeAttachedFile. simpl. by case_bool_decide.
  - unfold removeAttachedImage. simpl.
    pose proof (length_filter (λ i, AttachedImage.name i ≠ name) (attachedImages this)).
    lia.
Qed.

Lemma run_images_bound limit evs this :
  Forall (reads_maxImages limit) evs →
  Z.of_nat (length (attachedImages this)) ≤ Z.max 0 limit →
  Z.of_nat (length (attachedImages (run node evs this))) ≤ Z.max 0 limit.
Proof.
  intros Hevs. revert this.
  induction Hevs as [|ev evs Hev _ IH]; intros this Hbound; [done|].
  apply IH. by apply handle_images_bound.
Qed.

(** C7: once the store holds [maxImages] images or more,
    [handleImageAttachment] warns and changes nothing; hence, under a limit
    that stays the same, no sequence of events brings the number of images
    above the limit (above zero, for a negative limit). *)
Theorem handleImageAttachment_limit (limit : Z) :
  (∀ this fileUri readFileSync,
     limit ≤ Z.of_nat (length (attachedImages this)) →
     handleImageAttachment node limit fileUri readFileSync this
     = (this, [showWarningMessage ("Maximum " +:+ pretty limit +:+ " images allowed")])) ∧
  (∀ evs api,
     Forall (reads_maxImages limit) evs →
     Z.of_nat (length (attachedImages (run node evs (new api)))) ≤ Z.max 0 limit) ∧
  (0 ≤ limit →
     (∀ evs this,
        Forall (reads_maxImages limit) evs →
        Z.of_nat (length (attachedImages this)) ≤ limit →
        Z.of_nat (length (attachedImages (run node evs this))) ≤ limit) ∧
     (∀ evs api,
        Forall (reads_maxImages limit) evs →
        Z.of_nat (length (attachedImages (run node evs (new api)))) ≤ limit)).
Proof.
  split_and!.
  - intros. by apply handleImageAttachment_full.
  - intros evs api Hevs. apply run_images_bound; [done|simpl; lia].
  - intros Hlimit. split.
    + intros evs this Hevs Hbound.
      pose proof (run_images_bound limit evs this Hevs). lia.
    + intros evs api Hevs.
      pose proof (run_images_bound limit evs (new api) Hevs). simpl in *. lia.
Qed.

(** C9: with room left, [handleImageAttachment] pushes an image whose
    name is already in the store, and the old and the new entry are both
    there afterwards; [handleFileAttachment] refuses a path that is
    already in the store. *)
Theorem handleImageAttachment_same_name
    maxImages fileUri readFileSync filePath data img this :
  Z.of_nat (length (attachedImages this)) < maxImages →
  ClaudeCodeAssistant.chosen fileUri = Some filePath →
  readFileSync filePath = Normal data →
  img ∈ attachedImages this →
  AttachedImage.name img = Node.basename node filePath →
  let added :=
    {| AttachedImage.name := Node.basename node filePath;
       AttachedImage.data := data;
       AttachedImage.mediaType :=
         getMediaType
           (Node.toLowerCase node (Node.extname node (Node.basename node filePath))) |} in
  let result := handleImageAttachment node maxImages fileUri readFileSync this in
  attachedImages result.1 = attachedImages this ++ [added] ∧
  result.2 = updateChatAttachments result.1 ∧
  (∃ i, (i < length (attachedImages this))%nat ∧
        attachedImages result.1 !! i = Some img ∧
        attachedImages result.1 !! length (attachedImages this) = Some added) ∧
  AttachedImage.name added = AttachedImage.name img ∧
  length (filter (λ i, AttachedImage.name i = AttachedImage.name img)
            (attachedImages result.1))
  = S (length (filter (λ i, AttachedImage.name i = AttachedImage.name img)
                 (attachedImages this))) ∧
  (∀ f content, f ∈ attachedFiles this → AttachedFile.path f = Some filePath →
     handleFileAttachment node fileUri (λ _, Normal content) this
     = (this, [showWarningMessage "File already attached"])).
Proof.
  intros Hroom Huri Hread Himg Hname added result. subst result.
  rewrite (handleImageAttachment_room _ _ _ _ _ _ Hroom Huri Hread). simpl.
  fold added. split_and!; try done.
  - apply list_elem_of_lookup_1 in Himg as [i Hi]. exists i.
    pose proof (lookup_lt_Some _ _ _ Hi) as Hlt. split_and!; [done| |].
    + by rewrite lookup_app_l.
    + by rewrite list_lookup_middle.
  - rewrite filter_app, length_app.
    rewrite filter_cons_True by done. simpl. lia.
  - intros f content Hf Hpath.
    apply (handleFileAttachment_attached _ _ filePath content); [done..|].
    unfold paths. rewrite <-Hpath. by apply list_elem_of_fmap_2.
Qed.

(** *** removeAttachedFile *)

Lemma removeAttachedFile_absent filePath this :
  Some filePath ∉ paths this →
  attachedFiles (removeAttachedFile filePath this).1 = attachedFiles this.
Proof.
  intros Habsent.
  assert (filter (λ f, AttachedFile.path f ≠ Some filePath) (attachedFiles this)
          = attachedFiles this) as Hkeep.
  { apply filter_all. intros f Hf Hpath. apply Habsent.
    unfold paths. rewrite <-Hpath. by apply list_elem_of_fmap_2. }
  unfold removeAttachedFile. simpl. rewrite Hkeep. by case_bool_decide.
Qed.

Lemma removeAttachedFile_state filePath this :
  (removeAttachedFile filePath this).1 =
    {| claudeAPI := claudeAPI this;
       attachedFiles :=
         filter (λ f, AttachedFile.path f ≠ Some filePath) (attachedFiles this);
       attachedImages := attachedImages this;
       chatPanel := chatPanel this;
       currentActiveFile :=
         if bool_decide (currentActiveFile this = Some filePath) then None
         else currentActiveFile this |}.
Proof. unfold removeAttachedFile. simpl. by case_bool_decide. Qed.

Lemma removeAttachedFile_twice filePath this :
  (removeAttachedFile filePath (removeAttachedFile filePath this).1).1
  = (removeAttachedFile filePath this).1.
Proof.
  rewrite !removeAttachedFile_state. simpl. rewrite filter_twice. f_equal.
  by repeat case_bool_decide.
Qed.

Lemma handle_tracked ev this :
  tracked_attached this → tracked_attached (handle node ev this).1.
Proof.
  intros Hinv. destruct ev as [autoAttach [editor|]| | | |]; simpl.
  - destruct (autoAttach && _); [|done].
    destruct (decide (currentActiveFile this = Some (TextEditor.fileName editor))).
    + by rewrite attachCurrentFile_same.
    + rewrite attachCurrentFile_other by done.
      intros filePath [= <-]. unfold paths. simpl.
      rewrite fmap_app, elem_of_app. right. by left.
  - done.
  - intros filePath Htracked.
    destruct (handleFileAttachment_paths fileUri readFileSync this)
      as [Hsame|(added & _ & Hmore)].
    + rewrite Hsame. apply Hinv. revert Htracked.
      unfold handleFileAttachment. by repeat case_match.
    + rewrite Hmore, elem_of_app. left. apply Hinv. revert Htracked.
      unfold handleFileAttachment. by repeat case_match.
  - unfold handleImageAttachment. by repeat case_match.
  - unfold removeAttachedFile. simpl. case_bool_decide as Htracked; [done|].
    intros filePath Hfile. simpl in Hfile.
    specialize (Hinv filePath Hfile). unfold paths in *. simpl.
    apply list_elem_of_fmap in Hinv as (f & Hpath & Hf).
    apply list_elem_of_fmap. exists f. split; [done|].
    apply list_elem_of_filter. split; [|done]. congruence.
  - done.
Qed.

Lemma run_tracked evs this :
  tracked_attached this → tracked_attached (run node evs this).
Proof.
  revert this. induction evs as [|ev evs IH]; intros this Hinv; [done|].
  apply IH. by apply handle_tracked.
Qed.

Lemma new_tracked api : tracked_attached (new api).
Proof. by intros filePath. Qed.

(** C8: removing the tracked path drops its entries and forgets the
    tracked file, so that the next focus change onto that document pushes
    it again; removing a path that is not in the store changes nothing,
    and a removal done twice is a removal done once. *)
Theorem removeAttachedFile_spec :
  (∀ editor this,
     currentActiveFile this = Some (TextEditor.fileName editor) →
     TextEditor.scheme editor = "file" →
     let removed := (removeAttachedFile (TextEditor.fileName editor) this).1 in
     let refocused :=
       (onDidChangeActiveTextEditor node true (Some editor) removed).1 in
     (Some (TextEditor.fileName editor) ∉ paths removed) ∧
     currentActiveFile removed = None ∧
     fileOfEditor node editor ∈ attachedFiles refocused ∧
     currentActiveFile refocused = Some (TextEditor.fileName editor)) ∧
  (∀ filePath this,
     Some filePath ∉ paths this →
     attachedFiles (removeAttachedFile filePath this).1 = attachedFiles this ∧
     attachedImages (removeAttachedFile filePath this).1 = attachedImages this) ∧
  (∀ filePath evs api,
     Some filePath ∉ paths (run node evs (new api)) →
     (removeAttachedFile filePath (run node evs (new api))).1
     = run node evs (new api)) ∧
  (∀ filePath this,
     (removeAttachedFile filePath (removeAttachedFile filePath this).1).1
     = (removeAttachedFile filePath this).1).
Proof.
  split_and!.
  - intros editor this Htracked Hscheme removed refocused.
    assert (currentActiveFile removed = None) as Hcleared.
    { subst removed. unfold removeAttachedFile. simpl.
      by rewrite bool_decide_eq_true_2. }
    split_and!; [|done| |].
    + subst removed. unfold removeAttachedFile, paths. simpl.
      rewrite bool_decide_eq_true_2 by done. simpl.
      intros (f & Hpath & [Hkeep _]%list_elem_of_filter)%list_elem_of_fmap.
      congruence.
    + subst refocused. simpl. rewrite bool_decide_eq_true_2 by done.
      rewrite attachCurrentFile_other by congruence. simpl.
      rewrite elem_of_app. right. by left.
    + subst refocused. simpl. rewrite bool_decide_eq_true_2 by done.
      apply attachCurrentFile_tracks.
  - intros filePath this Habsent. split; [by apply removeAttachedFile_absent|].
    unfold removeAttachedFile. simpl. by case_bool_decide.
  - intros filePath evs api Habsent.
    pose proof (run_tracked evs (new api) (new_tracked api)) as Hinv.
    pose proof (removeAttachedFile_absent _ _ Habsent) as Hfiles.
    revert Hfiles. unfold removeAttachedFile. simpl.
    case_bool_decide as Htracked; [by apply Hinv in Htracked|].
    simpl. intros ->. apply set_attachedFiles_id.
  - apply removeAttachedFile_twice.
Qed.

End AttachmentStore.

(** ** Strings *)

Section Strings.

Implicit Types (s t u : string) (l k : list ascii).

Lemma string_app_nil_r s : s +:+ "" = s.
Proof. induction s as [|c s IH]; [done|]. cbv [String.append]. fold String.append. by f_equal. Qed.

Lemma string_app_assoc s t u : (s +:+ t) +:+ u = s +:+ (t +:+ u).
Proof.
  induction s as [|c s IH]; [done|].
  change (String c ((s +:+ t) +:+ u) = String c (s +:+ (t +:+ u))). by f_equal.
Qed.

Lemma string_length_app s t :
  String.length (s +:+ t) = (String.length s + String.length t)%nat.
Proof.
  induction s as [|c s IH]; [done|].
  change (S (String.length (s +:+ t)) = S (String.length s + String.length t)).
  by f_equal.
Qed.

Lemma string_of_list_ascii_app l k :
  String.string_of_list_ascii (l ++ k)
  = String.string_of_list_ascii l +:+ String.string_of_list_ascii k.
Proof.
  induction l as [|c l IH]; [done|]. simpl. rewrite IH. done.
Qed.

Lemma string_length_list s :
  length (String.list_ascii_of_string s) = String.length s.
Proof. induction s as [|c s IH]; [done|]. simpl. by f_equal. Qed.

Lemma string_length_of_list l :
  String.length (String.string_of_list_ascii l) = length l.
Proof. induction l as [|c l IH]; [done|]. simpl. by f_equal. Qed.

(** Building a string by appending to an accumulator, piece by piece, gives
    the accumulator followed by the pieces in their order. *)
Lemma fold_left_append {A} (piece : A → string) (items : list A) (start : string) :
  fold_left (λ acc item, acc +:+ piece item) items start
  = start +:+ foldr (λ item rest, piece item +:+ rest) "" items.
Proof.
  revert start. induction items as [|item items IH]; intros start; simpl.
  - by rewrite string_app_nil_r.
  - by rewrite IH, string_app_assoc.
Qed.

Lemma foldr_append_snoc {A} (piece : A → string) (items : list A) (item : A) :
  foldr (λ item rest, piece item +:+ rest) "" (items ++ [item])
  = foldr (λ item rest, piece item +:+ rest) "" items +:+ piece item.
Proof.
  induction items as [|first items IH]; simpl.
  - by rewrite string_app_nil_r.
  - by rewrite IH, string_app_assoc.
Qed.

End Strings.

(** ** The chat turn *)

Section ChatTurn.

Import Axios ClaudeCodeAssistant.

Implicit Types (this : ClaudeCodeAssistant.t) (text selectedModel : string).

(** With a key set, [handleChatMessage] posts one request, whose only
    message is the user turn with the content built from the store. *)
Lemma handleChatMessage_request text selectedModel this net :
  ClaudeAPI.apiKey (claudeAPI this) ≠ "" →
  (handleChatMessage text selectedModel this net).2 =
    [ ClaudeAPI.messageRequest (claudeAPI this)
        [ {| ClaudeMessage.role := user;
             ClaudeMessage.content := chatContent text this |} ]
        (Some selectedModel) ].
Proof.
  intros Hkey. unfold handleChatMessage, try_catch, bind.
  rewrite sendMessage_with_key by done.
  destruct (net _) as [[[|first rest]]|error]; simpl; by rewrite ?app_nil_r.
Qed.

Lemma augmentedText_none text this :
  attachedFiles this = [] → augmentedText text this = text.
Proof. intros Hnone. unfold augmentedText. by rewrite Hnone. Qed.

(** The text with the context of the attached files: the heading, then
    the entries of the files in the order of the store. *)
Lemma augmentedText_rendering text this :
  attachedFiles this ≠ [] →
  augmentedText text this
  = text +:+ (LF +:+ LF +:+ "**Attached Files:**" +:+ LF)
      +:+ foldr (λ file rest, fileEntry file +:+ rest) "" (attachedFiles this).
Proof.
  intros Hsome. unfold augmentedText.
  rewrite bool_decide_eq_true_2 by (destruct (attachedFiles this); [done|simpl; lia]).
  by rewrite fold_left_append, string_app_assoc.
Qed.

(** C4: with N >= 1 images in the store the content of the turn is an
    array of N+1 blocks: the text block with the augmented text, then for
    each image, in the order of the store, an image block with its data
    and media type; this is the content of the request posted.  The
    augmented text is the text typed when no file is attached, and else the
    text typed, the heading of the files and, for each attached file in the
    order of the store, its name, its language and its content in a fence. *)
Theorem chatContent_images text this :
  (1 ≤ length (attachedImages this))%nat →
  ∃ blocks,
    chatContent text this = content_array blocks ∧
    length blocks = S (length (attachedImages this)) ∧
    blocks !! 0%nat = Some (text_block (augmentedText text this)) ∧
    (∀ i img, attachedImages this !! i = Some img →
       blocks !! S i =
         Some (image_block {| ImageSource.media_type := AttachedImage.mediaType img;
                              ImageSource.data := AttachedImage.data img |})) ∧
    (∀ i block, blocks !! S i = Some block →
       ∃ img, attachedImages this !! i = Some img ∧ block = imageBlock img) ∧
    (∀ selectedModel net, ClaudeAPI.apiKey (claudeAPI this) ≠ "" →
       (handleChatMessage text selectedModel this net).2 =
         [ ClaudeAPI.messageRequest (claudeAPI this)
             [ {| ClaudeMessage.role := user;
                  ClaudeMessage.content := content_array blocks |} ]
             (Some selectedModel) ]) ∧
    (attachedFiles this = [] → augmentedText text this = text) ∧
    (attachedFiles this ≠ [] →
       augmentedText text this
       = text +:+ LF +:+ LF +:+ "**Attached Files:**" +:+ LF
           +:+ foldr
                 (λ file rest,
                    (LF +:+ "**" +:+ AttachedFile.name file +:+ "** ("
                        +:+ interpolate (AttachedFile.language file) +:+ "):" +:+ LF
                        +:+ "```" +:+ interpolate (AttachedFile.language file) +:+ LF
                        +:+ AttachedFile.content file +:+ LF
                        +:+ "```" +:+ LF) +:+ rest)
                 "" (attachedFiles this)) ∧
    interpolate None = "undefined" ∧
    (∀ language : string, interpolate (Some (str language)) = language).
Proof.
  intros Hsome.
  assert (chatContent text this =
          content_array (text_block (augmentedText text this)
                           :: (imageBlock <$> attachedImages this))) as Hcontent.
  { unfold chatContent. by rewrite bool_decide_eq_true_2 by lia. }
  eexists. split_and!; [exact Hcontent|..].
  - simpl. by rewrite length_fmap.
  - done.
  - intros i img Himg. simpl. by rewrite list_lookup_fmap, Himg.
  - intros i block. simpl. rewrite list_lookup_fmap.
    destruct (attachedImages this !! i) as [img|]; [|done].
    intros [= <-]. by exists img.
  - intros selectedModel net Hkey.
    by rewrite handleChatMessage_request, Hcontent.
  - apply augmentedText_none.
  - apply augmentedText_rendering.
  - done.
  - done.
Qed.

(** C5: with no file and no image in the store the content of the turn
    is the text as given, and this is the content of the request posted. *)
Theorem chatContent_identity text this :
  attachedFiles this = [] → attachedImages this = [] →
  chatContent text this = content_string text ∧
  (∀ selectedModel net, ClaudeAPI.apiKey (claudeAPI this) ≠ "" →
     (handleChatMessage text selectedModel this net).2 =
       [ ClaudeAPI.messageRequest (claudeAPI this)
           [ {| ClaudeMessage.role := user;
                ClaudeMessage.content := content_string text |} ]
           (Some selectedModel) ]).
Proof.
  intros Hfiles Himages.
  assert (chatContent text this = content_string text) as Hcontent.
  { unfold chatContent, augmentedText. by rewrite Hfiles, Himages. }
  split; [done|]. intros selectedModel net Hkey.
  by rewrite handleChatMessage_request, Hcontent.
Qed.

(** The rendering of one attached file in the text of the turn. *)
Example chatContent_a_py :
  chatContent "explain" Sample.with_a =
    content_string
      ("explain" +:+ LF +:+ LF +:+ "**Attached Files:**" +:+ LF +:+ LF
         +:+ "**a.py** (python):" +:+ LF
         +:+ "```python" +:+ LF +:+ "print(1)" +:+ LF +:+ "```" +:+ LF).
Proof. reflexivity. Qed.

End ChatTurn.

(** ** The properties at the sample inputs *)

Section Instances.

Import Axios ClaudeAPI ClaudeCodeAssistant.

Lemma checkApiKeyAccess_classifies_401 :
  apiKey Sample.keyed ≠ "" ∧
  (checkApiKeyAccess Sample.keyed (Sample.rejecting 401)).1 = Normal freeModels.
Proof.
  split; [done|].
  destruct (checkApiKeyAccess_classifies Sample.keyed (Sample.rejecting 401))
    as (_ & Hcases & _).
  destruct Hcases as (_ & H401 & _); [done|].
  by eapply H401.
Defined.

Lemma checkApiKeyAccess_no_key_unkeyed :
  apiKey Sample.unkeyed = "" ∧
  checkApiKeyAccess Sample.unkeyed (Sample.answering "Hello")
  = (Normal
       [ {| ModelInfo.id := "claude-3-5-haiku-20241022";
            ModelInfo.name := "Claude 3.5 Haiku"; ModelInfo.isPaid := false |};
         {| ModelInfo.id := "claude-3-haiku-20240307";
            ModelInfo.name := "Claude 3 Haiku"; ModelInfo.isPaid := false |} ],
     []).
Proof.
  split; [done|].
  destruct (checkApiKeyAccess_no_key Sample.unkeyed (Sample.answering "Hello"))
    as (_ & _ & _ & Hnone & _).
  by apply Hnone.
Defined.

Lemma sendMessage_failure_mapping_429 :
  apiKey Sample.keyed ≠ "" ∧
  (sendMessage Sample.keyed [] None (Sample.rejecting 429)).1 = Throw ThrottledError.
Proof.
  split; [done|].
  destruct (sendMessage_failure_mapping Sample.keyed [] None (Sample.rejecting 429))
    as (_ & Hkeyed & _).
  destruct Hkeyed as (_ & Hfail & _); [done|].
  destruct (Hfail _ eq_refl) as (_ & H429 & _).
  by apply H429.
Defined.

Lemma chatContent_images_logo :
  (1 ≤ length (attachedImages Scenario.illustrated))%nat ∧
  ∃ blocks,
    chatContent "explain" Scenario.illustrated = content_array blocks ∧
    length blocks = 3%nat ∧
    blocks !! 0%nat =
      Some (text_block
              ("explain" +:+ LF +:+ LF +:+ "**Attached Files:**" +:+ LF +:+ LF
                 +:+ "**a.py** (python):" +:+ LF
                 +:+ "```python" +:+ LF +:+ "print(1)" +:+ LF +:+ "```" +:+ LF)) ∧
    blocks !! 1%nat =
      Some (image_block {| ImageSource.media_type := "image/png";
                           ImageSource.data := "iVBORw0KGgo=" |}) ∧
    blocks !! 2%nat =
      Some (image_block {| ImageSource.media_type := "image/png";
                           ImageSource.data := "R0lGODlh" |}).
Proof.
  split; [vm_compute; lia|].
  destruct (chatContent_images "explain" Scenario.illustrated)
    as (blocks & Hcontent & Hlength & Htext & Himages & _ & _ & _ & Hfiles & _);
    [vm_compute; lia|].
  exists blocks. split_and!; [done|done| | |].
  - rewrite Htext, Hfiles; [|done]. reflexivity.
  - by rewrite (Himages 0%nat _ eq_refl).
  - by rewrite (Himages 1%nat _ eq_refl).
Defined.

Lemma chatContent_identity_hello :
  attachedFiles (new Sample.keyed) = [] ∧
  attachedImages (new Sample.keyed) = [] ∧
  chatContent "hello" (new Sample.keyed) = content_string "hello".
Proof.
  split_and!; [done|done|].
  by destruct (chatContent_identity "hello" (new Sample.keyed) eq_refl eq_refl).
Defined.

Lemma attachCurrentFile_spec_b_after_a :
  currentActiveFile Sample.focused_a ≠ Some (TextEditor.fileName Sample.b_ts) ∧
  paths (attachCurrentFile Sample.posix Sample.b_ts Sample.focused_a).1
  = [Some "/work/b.ts"].
Proof.
  split; [done|].
  destruct (attachCurrentFile_spec Sample.posix Sample.b_ts Sample.focused_a)
    as (_ & _ & Hother).
  destruct Hother as (Hfiles & _); [done|].
  unfold paths. by rewrite Hfiles.
Defined.

Lemma handleImageAttachment_limit_3 :
  0 ≤ 3 ∧
  Z.of_nat
    (length
       (attachedImages
          (run Sample.posix
             (replicate 5 (attachImage 3 (Some ["/pics/logo.png"]) (Sample.disk "iVBORw0KGgo=")))
             (new Sample.keyed)))) ≤ 3.
Proof.
  split; [lia|].
  destruct (handleImageAttachment_limit Sample.posix 3) as (_ & _ & Hrun).
  destruct Hrun as (_ & Hrun); [lia|].
  apply Hrun. by apply Forall_replicate.
Defined.

Lemma handleImageAttachment_same_name_logo :
  let result :=
    handleImageAttachment Sample.posix 3 (Some ["/old/logo.png"])
      (Sample.disk "R0lGODlh") Sample.with_logo in
  Sample.logo ∈ attachedImages Sample.with_logo ∧
  AttachedImage.name <$> attachedImages result.1 = ["logo.png"; "logo.png"].
Proof.
  intros result. split; [by left|].
  destruct (handleImageAttachment_same_name Sample.posix 3 (Some ["/old/logo.png"])
              (Sample.disk "R0lGODlh") "/old/logo.png" "R0lGODlh" Sample.logo
              Sample.with_logo)
    as (Himages & _); [by vm_compute|done|done|by left|done|].
  subst result. by rewrite Himages.
Defined.

Lemma removeAttachedFile_spec_a :
  currentActiveFile Sample.focused_a = Some (TextEditor.fileName Sample.a_py) ∧
  let removed := (removeAttachedFile "/work/a.py" Sample.focused_a).1 in
  attachedFiles removed = [] ∧
  fileOfEditor Sample.posix Sample.a_py
    ∈ attachedFiles
        (onDidChangeActiveTextEditor Sample.posix true (Some Sample.a_py) removed).1.
Proof.
  split; [done|]. intros removed. split; [done|].
  destruct (removeAttachedFile_spec Sample.posix) as (Hrefocus & _).
  by destruct (Hrefocus Sample.a_py Sample.focused_a eq_refl eq_refl)
    as (_ & _ & Hback & _).
Defined.

End Instances.

(** ** More on the attachment store *)

Section StoreInvariants.

Import ClaudeCodeAssistant.

Variable node : Node.t.

Implicit Types (this : ClaudeCodeAssistant.t) (editor : TextEditor.t)
  (ev : Event) (evs : list Event).

(** A property of the store that every handler keeps holds after every
    sequence of events. *)
Lemma run_invariant (I : ClaudeCodeAssistant.t → Prop) :
  (∀ ev this, I this → I (handle node ev this).1) →
  ∀ evs this, I this → I (run node evs this).
Proof.
  intros Hstep evs. induction evs as [|ev evs IH]; intros this Hthis; [done|].
  apply IH. by apply Hstep.
Qed.

Lemma removeAttachedImage_state imageName this :
  (removeAttachedImage imageName this).1 =
    set_attachedImages
      (filter (λ i, AttachedImage.name i ≠ imageName) (attachedImages this)) this.
Proof. done. Qed.

(** X1: Removing an image name leaves exactly the images of other names,
    each as often as before and in the order they had (so every image of
    that name is removed, and identical copies of another image all stay),
    keeps the files and the tracked file as they are, reports the new
    attachments, and has nothing left to do the second time. *)
Theorem removeAttachedImage_spec (imageName : string) this :
  let removed := (removeAttachedImage imageName this).1 in
  attachedImages removed
  = filter (λ img, AttachedImage.name img ≠ imageName) (attachedImages this) ∧
  (Forall (λ img, AttachedImage.name img ≠ imageName) (attachedImages this) →
     attachedImages removed = attachedImages this) ∧
  (∀ before img after, attachedImages this = before ++ img :: after →
     attachedImages removed =
       attachedImages
         (removeAttachedImage imageName (set_attachedImages before this)).1
       ++ (if bool_decide (AttachedImage.name img = imageName) then [] else [img])
       ++ attachedImages
            (removeAttachedImage imageName (set_attachedImages after this)).1) ∧
  (∀ img, img ∈ attachedImages removed
          ↔ img ∈ attachedImages this ∧ AttachedImage.name img ≠ imageName) ∧
  attachedImages removed `sublist_of` attachedImages this ∧
  attachedFiles removed = attachedFiles this ∧
  currentActiveFile removed = currentActiveFile this ∧
  (removeAttachedImage imageName this).2 = updateChatAttachments removed ∧
  (removeAttachedImage imageName removed).1 = removed.
Proof.
  intros removed. subst removed. rewrite !removeAttachedImage_state. simpl.
  split_and!; try done.
  - intros Hall. apply filter_all. by apply Forall_forall.
  - intros before img after ->. rewrite filter_app, filter_cons.
    case_bool_decide as Hname.
    + by destruct (decide _) as [Hne|_]; [destruct Hne|].
    + by destruct (decide _) as [_|Heq]; [|destruct Heq].
  - intros img. rewrite list_elem_of_filter. tauto.
  - apply sublist_filter.
  - unfold set_attachedImages. simpl. by rewrite filter_twice.
Qed.

(** X2: Removing a path leaves exactly the entries of other paths, each as
    often as before and in the order they had (so every entry of that path is
    removed, and identical entries of another path all stay), keeps the
    images as they are, forgets the tracked file when it is the removed path
    and keeps it otherwise, and reports the new attachments. *)
Theorem removeAttachedFile_all (filePath : string) this :
  let removed := (removeAttachedFile filePath this).1 in
  attachedFiles removed
  = filter (λ f, AttachedFile.path f ≠ Some filePath) (attachedFiles this) ∧
  (Forall (λ f, AttachedFile.path f ≠ Some filePath) (attachedFiles this) →
     attachedFiles removed = attachedFiles this) ∧
  (∀ before f after, attachedFiles this = before ++ f :: after →
     attachedFiles removed =
       attachedFiles (removeAttachedFile filePath (set_attachedFiles before this)).1
       ++ (if bool_decide (AttachedFile.path f = Some filePath) then [] else [f])
       ++ attachedFiles (removeAttachedFile filePath (set_attachedFiles after this)).1) ∧
  (∀ f, f ∈ attachedFiles removed
        ↔ f ∈ attachedFiles this ∧ AttachedFile.path f ≠ Some filePath) ∧
  (Some filePath ∉ paths removed) ∧
  attachedFiles removed `sublist_of` attachedFiles this ∧
  attachedImages removed = attachedImages this ∧
  (currentActiveFile this ≠ Some filePath →
     currentActiveFile removed = currentActiveFile this) ∧
  (currentActiveFile this = Some filePath → currentActiveFile removed = None) ∧
  (removeAttachedFile filePath this).2 = updateChatAttachments removed.
Proof.
  intros removed. subst removed. split_and!.
  - by rewrite removeAttachedFile_state.
  - intros Hall. rewrite removeAttachedFile_state. simpl.
    apply filter_all. by apply Forall_forall.
  - intros before f after Hsplit. rewrite !removeAttachedFile_state. simpl.
    rewrite Hsplit, filter_app, filter_cons.
    destruct (decide (AttachedFile.path f ≠ Some filePath)) as [Hother|Hsame].
    + by rewrite bool_decide_eq_false_2.
    + rewrite bool_decide_eq_true_2; [done|].
      by destruct (decide (AttachedFile.path f = Some filePath)).
  - intros f. rewrite removeAttachedFile_state. simpl.
    rewrite list_elem_of_filter. tauto.
  - rewrite removeAttachedFile_state. unfold paths. simpl.
    by intros (f & Hpath & [Hkeep _]%list_elem_of_filter)%list_elem_of_fmap.
  - rewrite removeAttachedFile_state. apply sublist_filter.
  - by rewrite removeAttachedFile_state.
  - intros Hother. rewrite removeAttachedFile_state. simpl.
    by rewrite bool_decide_eq_false_2.
  - intros Hsame. rewrite removeAttachedFile_state. simpl.
    by rewrite bool_decide_eq_true_2.
  - done.
Qed.

Lemma Forall_filter_keep {A} (P Q : A → Prop) `{!∀ x, Decision (Q x)} (l : list A) :
  Forall P l → Forall P (filter Q l).
Proof.
  rewrite !Forall_forall. intros Hall x [_ Hx]%list_elem_of_filter. by apply Hall.
Qed.

Lemma handle_complete ev this :
  Forall Extension.complete (attachedFiles this) →
  Forall Extension.complete (attachedFiles (handle node ev this).1).
Proof.
  intros Hall. destruct ev as [autoAttach [editor|]| | | |];
    cbn [handle onDidChangeActiveTextEditor].
  - destruct (autoAttach && _); [|done].
    destruct (decide (currentActiveFile this = Some (TextEditor.fileName editor))).
    + by rewrite attachCurrentFile_same.
    + rewrite attachCurrentFile_other by done. simpl.
      apply Forall_app. split; [by apply Forall_filter_keep|].
      apply Forall_singleton. by split.
  - done.
  - unfold handleFileAttachment. repeat case_match; try done. simpl.
    apply Forall_app. split; [done|]. apply Forall_singleton. by split.
  - unfold handleImageAttachment. by repeat case_match.
  - rewrite removeAttachedFile_state. simpl. by apply Forall_filter_keep.
  - done.
Qed.

(** X3: In every store the handlers can reach from the fresh assistant, each
    attached file has a path and a language; so a focus change that finds no
    tracked file keeps all the attached files and adds the document. *)
Theorem reachable_files_complete evs (api : ClaudeAPI.t) :
  let this := run node evs (new api) in
  (∀ f, f ∈ attachedFiles this →
     is_Some (AttachedFile.path f) ∧ is_Some (AttachedFile.language f)) ∧
  (∀ editor, currentActiveFile this = None →
     attachedFiles (attachCurrentFile node editor this).1
     = attachedFiles this ++ [fileOfEditor node editor]).
Proof.
  intros this.
  assert (Forall Extension.complete (attachedFiles this)) as Hall.
  { apply (run_invariant (λ s, Forall Extension.complete (attachedFiles s)));
      [apply handle_complete|constructor]. }
  rewrite Forall_forall in Hall. split; [done|].
  intros editor Hnone. rewrite attachCurrentFile_other by by rewrite Hnone.
  simpl. f_equal. apply filter_all. intros f [Hpath _]%Hall.
  rewrite Hnone. by destruct Hpath as [p ->].
Qed.

(** X4: In every store the handlers can reach from the fresh assistant, the
    tracked file is one of the attached files. *)
Theorem reachable_tracked_attached evs (api : ClaudeAPI.t) (filePath : string) :
  currentActiveFile (run node evs (new api)) = Some filePath →
  ∃ f, f ∈ attachedFiles (run node evs (new api)) ∧
       AttachedFile.path f = Some filePath.
Proof.
  intros Htracked.
  pose proof (run_tracked node evs (new api) (new_tracked api) filePath Htracked)
    as Hin.
  apply list_elem_of_fmap in Hin as (f & Hpath & Hf). by exists f.
Qed.

Lemma handle_chatPanel ev this :
  chatPanel (handle node ev this).1 = chatPanel this.
Proof.
  destruct ev as [autoAttach [editor|]| | | |];
    cbn [handle onDidChangeActiveTextEditor].
  - destruct (autoAttach && _); [|done].
    destruct (decide (currentActiveFile this = Some (TextEditor.fileName editor))).
    + by rewrite attachCurrentFile_same.
    + by rewrite attachCurrentFile_other.
  - done.
  - unfold handleFileAttachment. by repeat case_match.
  - unfold handleImageAttachment. by repeat case_match.
  - by rewrite removeAttachedFile_state.
  - done.
Qed.

Lemma updateChatAttachments_open this :
  chatPanel this = true →
  updateChatAttachments this = [postMessage (Extension.attachments this)].
Proof. intros Hopen. unfold updateChatAttachments. by rewrite Hopen. Qed.

Lemma updateChatAttachments_closed this :
  chatPanel this = false → updateChatAttachments this = [].
Proof. intros Hclosed. unfold updateChatAttachments. by rewrite Hclosed. Qed.

(** X5: No handler opens or closes the panel.  While the panel is open, an
    event that changes the store posts the attachments of the new store, and
    nothing else; while it is closed, no event posts anything. *)
Theorem handle_posts_attachments ev this :
  chatPanel (handle node ev this).1 = chatPanel this ∧
  (chatPanel this = true → (handle node ev this).1 ≠ this →
     (handle node ev this).2
     = [postMessage (Extension.attachments (handle node ev this).1)]) ∧
  (chatPanel this = false → ∀ m, postMessage m ∉ (handle node ev this).2).
Proof.
  split_and!; [apply handle_chatPanel| |].
  - intros Hopen Hchanged.
    pose proof (handle_chatPanel ev this) as Hpanel. rewrite Hopen in Hpanel.
    rewrite <-(updateChatAttachments_open _ Hpanel). clear Hpanel.
    destruct ev as [autoAttach [editor|]| | | |];
      cbn [handle onDidChangeActiveTextEditor] in *; try done.
    + destruct (autoAttach && _); [|done].
      unfold attachCurrentFile in *. case_bool_decide; [done|]. simpl.
      by rewrite Hopen.
    + unfold handleFileAttachment in *. by repeat case_match.
    + unfold handleImageAttachment in *. by repeat case_match.
  - intros Hclosed m.
    destruct ev as [autoAttach [editor|]| | | |];
    cbn [handle onDidChangeActiveTextEditor].
    + destruct (autoAttach && _); [|by apply not_elem_of_nil].
      unfold attachCurrentFile. case_bool_decide; simpl; [by apply not_elem_of_nil|].
      rewrite Hclosed. by apply not_elem_of_nil.
    + by apply not_elem_of_nil.
    + unfold handleFileAttachment. repeat case_match; simpl;
        rewrite ?updateChatAttachments_closed by done;
        try (by apply not_elem_of_nil);
        by intros [=]%list_elem_of_singleton.
    + unfold handleImageAttachment. repeat case_match; simpl;
        rewrite ?updateChatAttachments_closed by done;
        try (by apply not_elem_of_nil);
        by intros [=]%list_elem_of_singleton.
    + unfold removeAttachedFile. simpl.
      rewrite updateChatAttachments_closed; [by apply not_elem_of_nil|].
      by case_bool_decide.
    + unfold removeAttachedImage. simpl.
      rewrite updateChatAttachments_closed; [by apply not_elem_of_nil|done].
Qed.

End StoreInvariants.

Section StoreEdges.

Import ClaudeCodeAssistant.

Variable node : Node.t.

Implicit Types (this : ClaudeCodeAssistant.t) (editor : TextEditor.t)
  (ev : Event) (evs : list Event).

Lemma is_extension_own (ext : string) :
  Extension.is_extension ext → ext ∉ Object_prototype.
Proof. intros [->|[rest ->]] Hin; not_among Hin. Qed.

Lemma getMediaType_known (ext : string) :
  ext ∉ Object_prototype → Extension.is_media_type (getMediaType ext).
Proof.
  intros Hown. unfold getMediaType, Js.get.
  destruct (mediaMap !! ext) as [mediaType|] eqn:Hext.
  - apply elem_of_list_to_map_2 in Hext.
    repeat (apply elem_of_cons in Hext as [[= _ ->]|Hext];
            [eexists; split; [reflexivity|by_evaluation]|]).
    by apply elem_of_nil in Hext.
  - rewrite bool_decide_eq_false_2 by done.
    eexists. split; [reflexivity|by_evaluation].
Qed.

Lemma getMediaType_inherited (ext : string) :
  ext ∈ Object_prototype → getMediaType ext = inherited ext.
Proof.
  intros Hin. unfold getMediaType, Js.get.
  destruct (mediaMap !! ext) as [mediaType|] eqn:Hext.
  - exfalso. apply elem_of_list_to_map_2 in Hext.
    repeat (apply elem_of_cons in Hext as [[= -> _]|Hext]; [not_among Hin|]).
    by apply elem_of_nil in Hext.
  - by rewrite bool_decide_eq_true_2.
Qed.

Lemma handle_media_types ev this :
  Extension.conforming node →
  Forall (λ img, Extension.is_media_type (AttachedImage.mediaType img))
    (attachedImages this) →
  Forall (λ img, Extension.is_media_type (AttachedImage.mediaType img))
    (attachedImages (handle node ev this).1).
Proof.
  intros [Hextname Hlower] Hall. destruct ev as [autoAttach [editor|]| | | |];
    cbn [handle onDidChangeActiveTextEditor].
  - destruct (autoAttach && _); [|done].
    destruct (decide (currentActiveFile this = Some (TextEditor.fileName editor))).
    + by rewrite attachCurrentFile_same.
    + by rewrite attachCurrentFile_other.
  - done.
  - unfold handleFileAttachment. by repeat case_match.
  - unfold handleImageAttachment. repeat case_match; try done. simpl.
    apply Forall_app. split; [done|]. apply Forall_singleton. simpl.
    apply getMediaType_known, is_extension_own, Hlower, Hextname.
  - by rewrite removeAttachedFile_state.
  - rewrite removeAttachedImage_state. simpl. by apply Forall_filter_keep.
Qed.

(** X6: [getMediaType] answers the type of the table for the five
    extensions of the table and image/jpeg for every other string, except
    for the keys of [Object.prototype], for which it answers the member of
    the prototype, not a string.  An extension as [path.extname] returns it
    is no such key; so under a node that keeps the contract of
    [path.extname], every image of every store the handlers can reach from
    the fresh assistant, and every image block of a chat turn built from it,
    carries one of the four media types of the table. *)
Theorem attached_media_types :
  (getMediaType ".png" = str "image/png" ∧
   getMediaType ".jpg" = str "image/jpeg" ∧
   getMediaType ".jpeg" = str "image/jpeg" ∧
   getMediaType ".gif" = str "image/gif" ∧
   getMediaType ".webp" = str "image/webp") ∧
  (∀ ext, ext ∉ [".png"; ".jpg"; ".jpeg"; ".gif"; ".webp"] →
     ext ∉ Object_prototype → getMediaType ext = str "image/jpeg") ∧
  (∀ ext, ext ∈ Object_prototype → getMediaType ext = inherited ext) ∧
  (∀ ext, Extension.is_extension ext →
     ∃ mediaType, getMediaType ext = str mediaType ∧
       mediaType ∈ ["image/png"; "image/jpeg"; "image/gif"; "image/webp"]) ∧
  (Extension.conforming node →
     (∀ evs (api : ClaudeAPI.t) img,
        img ∈ attachedImages (run node evs (new api)) →
        ∃ mediaType, AttachedImage.mediaType img = str mediaType ∧
          mediaType ∈ ["image/png"; "image/jpeg"; "image/gif"; "image/webp"]) ∧
     (∀ evs (api : ClaudeAPI.t) text blocks source,
        chatContent text (run node evs (new api)) = content_array blocks →
        image_block source ∈ blocks →
        ∃ mediaType, ImageSource.media_type source = str mediaType ∧
          mediaType ∈ ["image/png"; "image/jpeg"; "image/gif"; "image/webp"])).
Proof.
  split; [by repeat (split; [reflexivity|])|].
  split; [|split; [|split]].
  - intros ext Hext Hown. unfold getMediaType, Js.get.
    destruct (mediaMap !! ext) as [mediaType|] eqn:Hknown.
    + exfalso. apply Hext. apply elem_of_list_to_map_2 in Hknown.
      repeat (apply elem_of_cons in Hknown as [[= -> _]|Hknown]; [by_evaluation|]).
      by apply elem_of_nil in Hknown.
    + by rewrite bool_decide_eq_false_2.
  - apply getMediaType_inherited.
  - intros ext Hext. by apply getMediaType_known, is_extension_own.
  - intros Hnode.
    assert (∀ evs (api : ClaudeAPI.t) img,
              img ∈ attachedImages (run node evs (new api)) →
              Extension.is_media_type (AttachedImage.mediaType img)) as Hreach.
    { intros evs api. apply Forall_forall.
      apply (run_invariant node
               (λ s, Forall (λ img, Extension.is_media_type (AttachedImage.mediaType img))
                       (attachedImages s)));
        [intros; by apply handle_media_types|constructor]. }
    split; [done|].
    intros evs api text blocks source. unfold chatContent.
    case_bool_decide; [|done]. intros [= <-].
    intros [[=]|(img & [= ->] & Himg)%list_elem_of_fmap]%elem_of_cons.
    by apply (Hreach evs api).
Qed.

(** The store the focus changes alone can build. *)
Lemma focus_single ev this :
  Extension.is_focus ev →
  (attachedFiles this = [] ∧ currentActiveFile this = None) ∨
  (∃ editor, attachedFiles this = [fileOfEditor node editor] ∧
             currentActiveFile this = Some (TextEditor.fileName editor)) →
  (attachedFiles (handle node ev this).1 = [] ∧
   currentActiveFile (handle node ev this).1 = None) ∨
  (∃ editor, attachedFiles (handle node ev this).1 = [fileOfEditor node editor] ∧
             currentActiveFile (handle node ev this).1
             = Some (TextEditor.fileName editor)).
Proof.
  intros Hfocus Hthis. destruct ev as [autoAttach [editor|]| | | |]; try done.
  cbn [handle onDidChangeActiveTextEditor].
  destruct (autoAttach && _); [|done].
  destruct (decide (currentActiveFile this = Some (TextEditor.fileName editor)))
    as [Hsame|Hother].
  { by rewrite attachCurrentFile_same. }
  rewrite attachCurrentFile_other by done. simpl. right. exists editor.
  split; [|done].
  destruct Hthis as [[-> _]|(tracked & -> & ->)]; [done|].
  by rewrite filter_cons_False by (by intros []).
Qed.

(** X7: Focus changes alone never leave more than the one auto-attached file in
    the store: after any sequence of them the store is empty, or holds
    exactly the entry of the tracked document. *)
Theorem focus_changes_track_one evs (api : ClaudeAPI.t) :
  Forall Extension.is_focus evs →
  let this := run node evs (new api) in
  (attachedFiles this = [] ∧ currentActiveFile this = None) ∨
  (∃ editor, attachedFiles this = [fileOfEditor node editor] ∧
             currentActiveFile this = Some (TextEditor.fileName editor)).
Proof.
  intros Hevs. simpl.
  assert (attachedFiles (new api) = [] ∧ currentActiveFile (new api) = None
          ∨ (∃ editor, attachedFiles (new api) = [fileOfEditor node editor] ∧
               currentActiveFile (new api) = Some (TextEditor.fileName editor)))
    as Hnew by by left.
  revert Hnew. generalize (new api).
  induction Hevs as [|ev evs Hev _ IH]; intros this Hthis; [done|].
  apply IH. by apply focus_single.
Qed.

(** X8: Removing an attached image makes room: in a store that is not over the
    limit, the attachment that follows the removal is accepted. *)
Theorem removeAttachedImage_makes_room
    (limit : Z) fileUri readFileSync (filePath data : string) img this :
  img ∈ attachedImages this →
  Z.of_nat (length (attachedImages this)) ≤ limit →
  ClaudeCodeAssistant.chosen fileUri = Some filePath →
  readFileSync filePath = Normal data →
  let removed := (removeAttachedImage (AttachedImage.name img) this).1 in
  attachedImages (handleImageAttachment node limit fileUri readFileSync removed).1
  = attachedImages removed ++
      [ {| AttachedImage.name := Node.basename node filePath;
           AttachedImage.data := data;
           AttachedImage.mediaType :=
             getMediaType
               (Node.toLowerCase node
                  (Node.extname node (Node.basename node filePath))) |} ].
Proof.
  intros Himg Hbound Huri Hread removed.
  rewrite (handleImageAttachment_room node limit fileUri readFileSync filePath data);
    [done| |done|done].
  subst removed. rewrite removeAttachedImage_state. simpl.
  pose proof (length_filter_lt (λ i, AttachedImage.name i ≠ AttachedImage.name img)
                (attachedImages this) img Himg) as Hless.
  assert (¬ AttachedImage.name img ≠ AttachedImage.name img) as Hsame by by intros [].
  specialize (Hless Hsame). lia.
Qed.

(** X9: An attachment changes the store only when the dialog gave a file and
    the file could be read (and, for a file, its path was not attached; for
    an image, there was room).  A cancelled dialog shows nothing, and a
    failed read shows the error of its kind, for a file even when its path
    is already attached. *)
Theorem attachment_failures (limit : Z) fileUri readFileSync this :
  ((handleFileAttachment node fileUri readFileSync this).1 ≠ this →
     ∃ filePath content,
       ClaudeCodeAssistant.chosen fileUri = Some filePath ∧
       readFileSync filePath = Normal content ∧
       Some filePath ∉ paths this) ∧
  ((handleImageAttachment node limit fileUri readFileSync this).1 ≠ this →
     ∃ filePath data,
       ClaudeCodeAssistant.chosen fileUri = Some filePath ∧
       readFileSync filePath = Normal data ∧
       Z.of_nat (length (attachedImages this)) < limit) ∧
  (ClaudeCodeAssistant.chosen fileUri = None →
     handleFileAttachment node fileUri readFileSync this = (this, []) ∧
     (Z.of_nat (length (attachedImages this)) < limit →
        handleImageAttachment node limit fileUri readFileSync this = (this, []))) ∧
  (∀ filePath error,
     ClaudeCodeAssistant.chosen fileUri = Some filePath →
     readFileSync filePath = Throw error →
     handleFileAttachment node fileUri readFileSync this
     = (this, [showErrorMessage "Failed to read file"]) ∧
     (Z.of_nat (length (attachedImages this)) < limit →
        handleImageAttachment node limit fileUri readFileSync this
        = (this, [showErrorMessage "Failed to read image"]))).
Proof.
  split_and!.
  - unfold handleFileAttachment.
    destruct (ClaudeCodeAssistant.chosen fileUri) as [filePath|]; [|done].
    destruct (readFileSync filePath) as [content|] eqn:Hread; [|done].
    case_bool_decide as Hin; [done|]. intros _. exists filePath, content.
    by rewrite path_attached in Hin.
  - unfold handleImageAttachment. case_bool_decide as Hfull; [done|].
    destruct (ClaudeCodeAssistant.chosen fileUri) as [filePath|]; [|done].
    destruct (readFileSync filePath) as [data|] eqn:Hread; [|done].
    intros _. exists filePath, data. split_and!; [done..|lia].
  - intros Hnone. unfold handleFileAttachment, handleImageAttachment.
    rewrite Hnone. split; [done|]. intros Hroom.
    by rewrite bool_decide_eq_false_2 by lia.
  - intros filePath error Huri Hread.
    unfold handleFileAttachment, handleImageAttachment.
    rewrite Huri, Hread. split; [done|]. intros Hroom.
    by rewrite bool_decide_eq_false_2 by lia.
Qed.

End StoreEdges.


(** ** More on the chat turn and the API client *)

Section ChatAndClient.

Import Axios ClaudeAPI ClaudeCodeAssistant.

Implicit Types (this : ClaudeCodeAssistant.t) (text selectedModel : string)
  (net : Network).

(** X10: With files attached, the text of a turn is the text typed, the
    heading of the files and then, for each attached file in the order of
    the store, an entry of its name in bold, its language in brackets and
    its content in a fence tagged with the language; attaching one more file
    adds its entry at the end.  Without images this text is the content of
    the turn.  A file without a language is rendered with "undefined". *)
Theorem augmentedText_lists_files text this :
  attachedFiles this ≠ [] →
  let entry (file : AttachedFile.t) : string :=
    LF +:+ "**" +:+ AttachedFile.name file +:+ "** ("
       +:+ interpolate (AttachedFile.language file) +:+ "):" +:+ LF
       +:+ "```" +:+ interpolate (AttachedFile.language file) +:+ LF
       +:+ AttachedFile.content file +:+ LF
       +:+ "```" +:+ LF in
  augmentedText text this
  = text +:+ LF +:+ LF +:+ "**Attached Files:**" +:+ LF
      +:+ foldr (λ file rest, entry file +:+ rest) "" (attachedFiles this) ∧
  (∀ file,
     augmentedText text (set_attachedFiles (attachedFiles this ++ [file]) this)
     = augmentedText text this +:+ entry file) ∧
  (attachedImages this = [] →
     chatContent text this = content_string (augmentedText text this)) ∧
  interpolate None = "undefined" ∧
  (∀ language : string, interpolate (Some (str language)) = language).
Proof.
  intros Hfiles entry.
  split_and!; [by apply augmentedText_rendering| | |done|done].
  - intros file.
    rewrite (augmentedText_rendering text this) by done.
    rewrite (augmentedText_rendering text (set_attachedFiles _ this))
      by (simpl; by destruct (attachedFiles this)).
    simpl. by rewrite foldr_append_snoc, !string_app_assoc.
  - intros Himages. unfold chatContent. by rewrite Himages.
Qed.

Lemma handleChatMessage_with_key text selectedModel this net :
  apiKey (claudeAPI this) ≠ "" →
  handleChatMessage text selectedModel this net =
    (Normal
       (postToPanel this
          (match net (messageRequest (claudeAPI this)
                        [ {| ClaudeMessage.role := user;
                             ClaudeMessage.content := chatContent text this |} ]
                        (Some selectedModel)) with
           | Normal response =>
               match data_content response with
               | first :: _ => receiveMessage first
               | [] => receiveError (message (sendFailure TypeError_text))
               end
           | Throw error => receiveError (message (sendFailure error))
           end)),
     [ messageRequest (claudeAPI this)
         [ {| ClaudeMessage.role := user;
              ClaudeMessage.content := chatContent text this |} ]
         (Some selectedModel) ]).
Proof.
  intros Hkey. unfold handleChatMessage, try_catch, bind.
  rewrite sendMessage_with_key by done.
  destruct (net _) as [[[|first rest]]|error]; simpl; by rewrite ?app_nil_r.
Qed.

Lemma handleChatMessage_without_key text selectedModel this net :
  apiKey (claudeAPI this) = "" →
  handleChatMessage text selectedModel this net =
    (Normal (postToPanel this (receiveError (message ConfigurationError))), []).
Proof.
  intros Hkey. unfold handleChatMessage, try_catch, bind.
  by rewrite sendMessage_without_key.
Qed.

(** X11: [handleChatMessage] never throws and posts at most one request.  With
    the panel open it posts exactly one message to the webview: the first
    text of the answer, or the message of the failure; without a key that
    is the configuration error, and no request is posted. *)
Theorem handleChatMessage_outcome text selectedModel this net :
  let result := handleChatMessage text selectedModel this net in
  let req :=
    messageRequest (claudeAPI this)
      [ {| ClaudeMessage.role := user;
           ClaudeMessage.content := chatContent text this |} ]
      (Some selectedModel) in
  (∃ posted, result.1 = Normal posted ∧
     (chatPanel this = false → posted = []) ∧
     (chatPanel this = true →
        ∃ shown, posted = [postMessage (receiveMessage shown)] ∨
                 posted = [postMessage (receiveError shown)])) ∧
  (length result.2 ≤ 1)%nat ∧
  (apiKey (claudeAPI this) = "" →
     result =
       (Normal
          (postToPanel this
             (receiveError
                "API key not configured. Please set your Anthropic API key.")),
        [])) ∧
  (apiKey (claudeAPI this) ≠ "" →
     (∀ error, net req = Throw error →
        result.1 = Normal (postToPanel this (receiveError (message (sendFailure error))))) ∧
     (∀ response first rest, net req = Normal response →
        data_content response = first :: rest →
        result.1 = Normal (postToPanel this (receiveMessage first)))).
Proof.
  intros result req. subst result req.
  destruct (decide (apiKey (claudeAPI this) = "")) as [Hkey|Hkey].
  - rewrite handleChatMessage_without_key by done. simpl.
    split_and!; [|lia|done|done].
    eexists. split; [done|]. unfold postToPanel.
    split; intros ->; [done|]. eexists. by right.
  - rewrite handleChatMessage_with_key by done. simpl.
    split_and!; [|lia|done|].
    + eexists. split; [done|]. unfold postToPanel.
      split; intros ->; [done|].
      destruct (net _) as [[[|first rest]]|error]; eexists; (by left) || (by right).
    + intros _. split; [by intros error ->|by intros response first rest -> ->].
Qed.

(** X12: The request of [sendMessage] under a configuration with a key: it
    carries that key and the messages as given, the token budget of the
    configuration or 200000, and the selected model; when no model or the
    empty one is selected, the model of the configuration or Claude 3.5
    Haiku.  Under a configuration without a key, neither [sendMessage] nor
    [checkApiKeyAccess] posts a request. *)
Theorem configured_request (config : WorkspaceConfiguration.t)
    (messages : list ClaudeMessage.t) (selectedModel : option string) net :
  let api := Extension.updateConfig config in
  let configured :=
    default "claude-3-5-haiku-20241022" (WorkspaceConfiguration.model config) in
  (∀ key, WorkspaceConfiguration.apiKey config = Some key → key ≠ "" →
     ∃ req, (sendMessage api messages selectedModel net).2 = [req] ∧
       x_api_key req = key ∧
       Axios.messages req = messages ∧
       max_tokens req = default 200000 (WorkspaceConfiguration.maxTokens config) ∧
       (∀ chosen, selectedModel = Some chosen → chosen ≠ "" →
          Axios.model req = chosen) ∧
       (selectedModel = None ∨ selectedModel = Some "" →
          Axios.model req = configured)) ∧
  (WorkspaceConfiguration.apiKey config = None
   ∨ WorkspaceConfiguration.apiKey config = Some "" →
     sendMessage api messages selectedModel net = (Throw ConfigurationError, []) ∧
     checkApiKeyAccess api net = (Normal freeModels, [])).
Proof.
  intros api configured. split.
  - intros key Hconfig Hkey.
    assert (apiKey api = key) as Hapi.
    { subst api. unfold Extension.updateConfig. simpl. by rewrite Hconfig. }
    eexists. rewrite sendMessage_with_key by by rewrite Hapi. simpl.
    split_and!; try done.
    + intros chosen -> Hchosen. simpl. unfold truthy.
      by rewrite bool_decide_eq_true_2.
    + by intros [->| ->].
  - intros Hconfig.
    assert (apiKey api = "") as Hapi.
    { subst api. unfold Extension.updateConfig. simpl.
      by destruct Hconfig as [->| ->]. }
    by rewrite sendMessage_without_key, checkApiKeyAccess_without_key.
Qed.

End ChatAndClient.

(** ** Commands, the key changer and the chat panel *)

Section Commands.

Import Axios ClaudeAPI ClaudeCodeAssistant Extension.

Implicit Types (this : ClaudeCodeAssistant.t) (net : Network) (key : string).

Lemma substring_head key (n : nat) :
  JsString.substring key 0 (Some (Z.of_nat n))
  = String.string_of_list_ascii (take n (String.list_ascii_of_string key)).
Proof.
  unfold JsString.substring. f_equal.
  pose proof (string_length_list key) as Hlen.
  replace (Z.to_nat (Z.min (Z.max 0 0) (Z.of_nat (String.length key)))) with 0%nat by lia.
  rewrite Nat.min_0_l, Nat.max_0_l, Nat.sub_0_r, drop_0.
  destruct (decide (n ≤ String.length key)%nat) as [Hle|Hgt].
  - f_equal. lia.
  - rewrite !take_ge by lia. done.
Qed.

Lemma substring_tail key (i : Z) :
  JsString.substring key i None
  = String.string_of_list_ascii
      (drop (Z.to_nat i) (String.list_ascii_of_string key)).
Proof.
  unfold JsString.substring. f_equal.
  pose proof (string_length_list key) as Hlen.
  set (first := Z.to_nat (Z.min (Z.max i 0) (Z.of_nat (String.length key)))).
  assert (first ≤ String.length key)%nat as Hfirst by lia.
  rewrite Nat.min_l, Nat.max_r by done.
  rewrite take_ge by (rewrite length_drop; lia).
  destruct (decide (Z.to_nat i ≤ String.length key)%nat) as [Hle|Hgt].
  - f_equal. lia.
  - rewrite !drop_ge by lia. done.
Qed.

Lemma maskedKey_parts key :
  key ≠ "" →
  maskedKey key
  = String.string_of_list_ascii (take 8 (String.list_ascii_of_string key))
      +:+ "..."
      +:+ String.string_of_list_ascii
            (drop (String.length key - 4) (String.list_ascii_of_string key)).
Proof.
  intros Hkey%truthy_true. unfold maskedKey. rewrite Hkey.
  change (Some 8) with (Some (Z.of_nat 8)).
  rewrite (substring_head key 8), substring_tail.
  do 4 f_equal. lia.
Qed.

(** X13: The key in the placeholder of the input box: "Not set" for the empty
    key; a key of at most 8 characters in full before the dots, and once more
    after them when it has at most 4; for a key of 8 characters or more, 15
    characters; for a key of 12 or more, its first 8 and its last 4 around
    the dots, the characters between them left out. *)
Theorem maskedKey_discloses :
  maskedKey "" = "Not set" ∧
  (∀ key, key ≠ "" → (String.length key ≤ 4)%nat →
     maskedKey key = key +:+ "..." +:+ key) ∧
  (∀ key, key ≠ "" → (String.length key ≤ 8)%nat →
     ∃ last, maskedKey key = key +:+ "..." +:+ last) ∧
  (∀ key, (8 ≤ String.length key)%nat → String.length (maskedKey key) = 15%nat) ∧
  (∀ key, (12 ≤ String.length key)%nat →
     ∃ first hidden last,
       key = first +:+ hidden +:+ last ∧
       String.length first = 8%nat ∧
       String.length last = 4%nat ∧
       maskedKey key = first +:+ "..." +:+ last).
Proof.
  split_and!; [done| | | |].
  - intros key Hkey Hshort. rewrite maskedKey_parts by done.
    pose proof (string_length_list key) as Hlen.
    rewrite take_ge by lia.
    replace (String.length key - 4)%nat with 0%nat by lia.
    by rewrite drop_0, !String.string_of_list_ascii_of_string.
  - intros key Hkey Hshort. rewrite maskedKey_parts by done.
    pose proof (string_length_list key) as Hlen.
    rewrite take_ge by lia.
    rewrite String.string_of_list_ascii_of_string. by eexists.
  - intros key Hlong.
    assert (key ≠ "") as Hkey by (by intros ->; simpl in Hlong; lia).
    rewrite maskedKey_parts by done.
    pose proof (string_length_list key) as Hlen.
    rewrite !string_length_app, !string_length_of_list.
    rewrite length_take, length_drop.
    change (String.length "...") with 3%nat. lia.
  - intros key Hlong.
    assert (key ≠ "") as Hkey by (by intros ->; simpl in Hlong; lia).
    rewrite maskedKey_parts by done.
    pose proof (string_length_list key) as Hlen.
    exists (String.string_of_list_ascii (take 8 (String.list_ascii_of_string key))),
      (String.string_of_list_ascii
         (take (String.length key - 12)
            (drop 8 (String.list_ascii_of_string key)))),
      (String.string_of_list_ascii
         (drop (String.length key - 4) (String.list_ascii_of_string key))).
    split_and!; [| | |done].
    + rewrite <-!string_of_list_ascii_app.
      rewrite <-(String.string_of_list_ascii_of_string key) at 1. f_equal.
      rewrite <-(take_drop 8 (String.list_ascii_of_string key)) at 1. f_equal.
      rewrite <-(take_drop (String.length key - 12)
                   (drop 8 (String.list_ascii_of_string key))) at 1.
      f_equal. rewrite drop_drop. f_equal. lia.
    + rewrite string_length_of_list, length_take. lia.
    + rewrite string_length_of_list, length_drop. lia.
Qed.

(** *** The prompt commands *)

Lemma promptCommand_run (progressTitle before after responseTitle : string)
    (editor : ActiveEditor.t) this net :
  ActiveEditor.selectedText editor ≠ "" →
  let messages :=
    [ {| ClaudeMessage.role := user;
         ClaudeMessage.content :=
           content_string
             (prompt before after (ActiveEditor.languageId editor)
                (ActiveEditor.selectedText editor)) |} ] in
  promptCommand progressTitle before after responseTitle (Some editor) this net =
    (Normal
       (withProgress progressTitle ::
          match (sendMessage (claudeAPI this) messages None net).1 with
          | Normal response => [showResponse responseTitle response]
          | Throw error => [unhandledRejection error]
          end),
     (sendMessage (claudeAPI this) messages None net).2).
Proof.
  intros Hselected%truthy_true messages. unfold promptCommand.
  rewrite Hselected. simpl. unfold try_catch, bind, detached, ret.
  fold messages.
  destruct (sendMessage (claudeAPI this) messages None net) as [[response|error] reqs];
    simpl; by rewrite !app_nil_r.
Qed.

(** X14: Each of [explainCode], [optimizeCode], [addComments] and [debugCode]
    shows an error and posts nothing when there is no editor or the selection
    is empty; with a selection and a key it posts one request, for the model
    of the configuration, whose only message is the prompt, and on an answer
    shows the first text of the answer in a panel. *)
Theorem promptCommand_outcomes (progressTitle before after responseTitle : string)
    this net :
  let command := promptCommand progressTitle before after responseTitle in
  Forall (λ cmd, ∃ title before after response,
            cmd = promptCommand title before after response) promptCommands ∧
  command None this net
  = (Normal [ui (showErrorMessage "No active editor found")], []) ∧
  (∀ editor, ActiveEditor.selectedText editor = "" →
     command (Some editor) this net
     = (Normal [ui (showErrorMessage "No code selected")], [])) ∧
  (∀ editor, ActiveEditor.selectedText editor ≠ "" → apiKey (claudeAPI this) ≠ "" →
     let req :=
       messageRequest (claudeAPI this)
         [ {| ClaudeMessage.role := user;
              ClaudeMessage.content :=
                content_string
                  (prompt before after (ActiveEditor.languageId editor)
                     (ActiveEditor.selectedText editor)) |} ]
         None in
     (command (Some editor) this net).2 = [req] ∧
     Axios.model req = ClaudeAPI.model (claudeAPI this) ∧
     (∀ response first rest, net req = Normal response →
        data_content response = first :: rest →
        (command (Some editor) this net).1
        = Normal [withProgress progressTitle; showResponse responseTitle first])).
Proof.
  intros command. subst command. split_and!.
  - repeat constructor; by do 4 eexists.
  - done.
  - intros editor Hempty%truthy_false. unfold promptCommand. by rewrite Hempty.
  - intros editor Hselected Hkey req. rewrite promptCommand_run by done.
    rewrite sendMessage_with_key by done. simpl. split_and!; [done|done|].
    fold req. by intros response first rest -> ->.
Qed.

(** X15: A prompt command never shows the failure of its request: the command
    does not await the task it starts, so a missing key and every failed
    request end as a rejection nobody handles, after the progress
    notification and without an error message. *)
Theorem promptCommand_failures (progressTitle before after responseTitle : string)
    (editor : ActiveEditor.t) this net :
  ActiveEditor.selectedText editor ≠ "" →
  let result :=
    promptCommand progressTitle before after responseTitle (Some editor) this net in
  let req :=
    messageRequest (claudeAPI this)
      [ {| ClaudeMessage.role := user;
           ClaudeMessage.content :=
             content_string
               (prompt before after (ActiveEditor.languageId editor)
                  (ActiveEditor.selectedText editor)) |} ]
      None in
  (∃ done, result.1 = Normal done ∧ ∀ msg, ui (showErrorMessage msg) ∉ done) ∧
  (apiKey (claudeAPI this) = "" →
     result
     = (Normal [withProgress progressTitle; unhandledRejection ConfigurationError], [])) ∧
  (apiKey (claudeAPI this) ≠ "" →
     ∀ error, net req = Throw error →
       result.1
       = Normal [withProgress progressTitle; unhandledRejection (sendFailure error)]).
Proof.
  intros Hselected result req. subst result req.
  rewrite promptCommand_run by done. simpl. split_and!.
  - eexists. split; [done|]. intros msg.
    rewrite not_elem_of_cons. split; [done|].
    destruct (sendMessage _ _ _ _).1;
      by intros [=]%list_elem_of_singleton.
  - intros Hkey. by rewrite sendMessage_without_key.
  - intros Hkey error Hnet. rewrite sendMessage_with_key by done. simpl.
    by rewrite Hnet.
Qed.

End Commands.

Section ChatPanel.

Import Axios ClaudeAPI ClaudeCodeAssistant Extension.

Implicit Types (this : ClaudeCodeAssistant.t) (net : Network).

Lemma checkApiKeyAccess_normal (api : ClaudeAPI.t) net :
  ∃ models, checkApiKeyAccess api net = (Normal models, (checkApiKeyAccess api net).2).
Proof.
  destruct (decide (apiKey api = "")) as [Hkey|Hkey].
  - rewrite checkApiKeyAccess_without_key by done. by eexists.
  - rewrite checkApiKeyAccess_with_key by done. by eexists.
Qed.

Lemma handleChatMessage_normal text selectedModel this net :
  ∃ posted,
    handleChatMessage text selectedModel this net
    = (Normal posted, (handleChatMessage text selectedModel this net).2).
Proof.
  destruct (decide (apiKey (claudeAPI this) = "")) as [Hkey|Hkey].
  - rewrite handleChatMessage_without_key by done. by eexists.
  - rewrite handleChatMessage_with_key by done. by eexists.
Qed.

Lemma set_chatPanel_id this : set_chatPanel (chatPanel this) this = this.
Proof. by destruct this. Qed.

(** X16: [openChat] on an open panel only reveals it: no request, no change.
    On a closed panel it never throws, probes the key once at most, builds
    the page from the models the probe returns and then posts the attachments
    the store holds at that moment, which it leaves as they are.  Closing the
    panel keeps the attachments: they are posted again when the chat is
    opened anew. *)
Theorem openChat_spec this net :
  (chatPanel this = true → openChat this net = (Normal (this, [reveal]), [])) ∧
  (chatPanel this = false →
     ∃ models,
       (checkApiKeyAccess (claudeAPI this) net).1 = Normal models ∧
       openChat this net =
         (Normal (set_chatPanel true this,
                  [createWebviewPanel; setHtml models;
                   ui (postMessage (attachments this))]),
          (checkApiKeyAccess (claudeAPI this) net).2)) ∧
  (chatPanel this = true →
     ∃ models,
       (openChat (onDidDispose this) net).1 =
         Normal (this, [createWebviewPanel; setHtml models;
                        ui (postMessage (attachments this))])) ∧
  same_attachments (onDidDispose this) this.
Proof.
  assert (∀ that, chatPanel that = false →
     ∃ models,
       (checkApiKeyAccess (claudeAPI that) net).1 = Normal models ∧
       openChat that net =
         (Normal (set_chatPanel true that,
                  [createWebviewPanel; setHtml models;
                   ui (postMessage (attachments that))]),
          (checkApiKeyAccess (claudeAPI that) net).2)) as Hclosed.
  { intros that Hpanel. unfold openChat, bind. rewrite Hpanel. simpl.
    destruct (checkApiKeyAccess_normal (claudeAPI that) net) as [models Hprobe].
    exists models. rewrite Hprobe. simpl. by rewrite app_nil_r. }
  split; [|split; [|split]]; [|apply Hclosed| |done].
  - intros Hopen. unfold openChat. by rewrite Hopen.
  - intros Hopen.
    destruct (Hclosed (onDidDispose this) eq_refl) as (models & _ & ->).
    exists models. simpl. do 2 f_equal.
    rewrite <-Hopen. by destruct this.
Qed.

(** The outcomes of [openApiKeyChanger], case by case. *)
Lemma openApiKeyChanger_cases (currentKey : string) (newKey : option string)
    (reloaded : WorkspaceConfiguration.t) (disposed : bool) this net :
  let asked := showInputBox ("Current: " +:+ maskedKey currentKey) in
  let api := updateConfig reloaded in
  openApiKeyChanger currentKey newKey reloaded disposed this net =
    match newKey with
    | None => (Normal (this, [asked], Normal ()), [])
    | Some entered =>
        let shown :=
          [ asked; updateSetting "apiKey" entered;
            showInformationMessage "API key updated successfully" ] in
        if chatPanel this then
          (Normal
             (if disposed && truthy (apiKey api)
              then (onDidDispose (set_claudeAPI api this), shown,
                    Throw TypeError_webview)
              else (set_claudeAPI api this,
                    shown ++
                      [ui (postMessage
                             (updateModels
                                (match (checkApiKeyAccess api net).1 with
                                 | Normal models => models
                                 | Throw _ => []
                                 end)))],
                    Normal ())),
           (checkApiKeyAccess api net).2)
        else (Normal (set_claudeAPI api this, shown, Normal ()), [])
    end.
Proof.
  intros asked api. unfold openApiKeyChanger, bind.
  destruct newKey as [entered|]; [|done]. simpl.
  destruct (chatPanel this); [|done].
  destruct (checkApiKeyAccess_normal (updateConfig reloaded) net) as [models Hprobe].
  subst api. rewrite Hprobe. simpl.
  destruct (disposed && _); simpl; by rewrite ?app_nil_r.
Qed.

(** X17: [openApiKeyChanger]: when the input box is dismissed nothing
    changes and nothing is posted.  When it is confirmed, with any text and
    the empty one too, the client takes the reloaded configuration, the
    attachments stay, and the update is announced.  Only with the panel open
    is the key probed; the models the probe returns are then posted to the
    webview last, unless the panel is disposed while the request of the probe
    is pending: then the call throws a TypeError after the announcement and
    posts nothing.  Without a key the probe posts no request, and the models
    are posted. *)
Theorem openApiKeyChanger_spec (currentKey : string) (newKey : option string)
    (reloaded : WorkspaceConfiguration.t) (disposed : bool) this net :
  let result := openApiKeyChanger currentKey newKey reloaded disposed this net in
  let api := updateConfig reloaded in
  (newKey = None →
     result =
       (Normal (this, [showInputBox ("Current: " +:+ maskedKey currentKey)], Normal ()),
        [])) ∧
  (∀ entered, newKey = Some entered →
     ∃ that shown outcome,
       result.1 = Normal (that, shown, outcome) ∧
       claudeAPI that = api ∧
       same_attachments that this ∧
       take 3 shown =
         [ showInputBox ("Current: " +:+ maskedKey currentKey);
           updateSetting "apiKey" entered;
           showInformationMessage "API key updated successfully" ] ∧
       (chatPanel this = false →
          that = set_claudeAPI api this ∧ length shown = 3%nat ∧
          outcome = Normal () ∧ result.2 = []) ∧
       (chatPanel this = true →
          result.2 = (checkApiKeyAccess api net).2 ∧
          (disposed = false ∨ apiKey api = "" →
             that = set_claudeAPI api this ∧ outcome = Normal () ∧
             ∃ models, (checkApiKeyAccess api net).1 = Normal models ∧
                       drop 3 shown = [ui (postMessage (updateModels models))]) ∧
          (disposed = true → apiKey api ≠ "" →
             that = onDidDispose (set_claudeAPI api this) ∧
             chatPanel that = false ∧ length shown = 3%nat ∧
             outcome = Throw TypeError_webview ∧
             result.2 = [probeRequest api]))).
Proof.
  intros result api. subst result api. rewrite openApiKeyChanger_cases. split.
  - by intros ->.
  - intros entered ->.
    destruct (chatPanel this) eqn:Hpanel; [|by do 3 eexists; split_and!].
    destruct (checkApiKeyAccess_normal (updateConfig reloaded) net) as [models Hprobe].
    destruct (decide (apiKey (updateConfig reloaded) = "")) as [Hkey|Hkey].
    + pose proof Hkey as Hfalsy%truthy_false. rewrite Hfalsy, andb_false_r.
      do 3 eexists. split_and!; try done.
      intros _. split_and!; try done.
      intros _. split_and!; try done. exists models. by rewrite Hprobe.
    + pose proof Hkey as Htruthy%truthy_true. rewrite Htruthy, andb_true_r.
      destruct disposed.
      * do 3 eexists. split_and!; try done.
        intros _. split_and!; try done.
        -- by intros [|].
        -- intros _ _. split_and!; try done.
           by rewrite checkApiKeyAccess_with_key.
      * do 3 eexists. split_and!; try done.
        intros _. split_and!; try done.
        intros _. split_and!; try done. exists models. by rewrite Hprobe.
Qed.

(** The command at hand is in the list, against the assumption. *)
Ltac listed :=
  let Hout := fresh in
  intros Hout; exfalso; apply Hout;
  match goal with Heq : command _ = _ |- _ => rewrite Heq end;
  by repeat constructor.

(** The command at hand is not in the list. *)
Ltac not_listed :=
  let Hin := fresh in
  match goal with Heq : command _ = _ |- _ => rewrite Heq end;
  intros Hin;
  repeat (apply elem_of_cons in Hin as [Hin|Hin]; [discriminate|]);
  by apply elem_of_nil in Hin.

Lemma same_attachments_resumed (host : Answers) (awaits : bool) this :
  same_attachments (resumed host awaits this) this.
Proof. unfold resumed. by destruct (disposed host && awaits). Qed.

(** The conditions under which the key changer throws, refuted by the
    case at hand. *)
Ltac no_throw :=
  split; [done|];
  intros (_ & Hsome & Hopen & Hclosed & Hdisposed & Hkey); try done;
  try (by destruct Hsome);
  apply truthy_true in Hkey; congruence.

(** X18: The handler of the panel throws in one case only: the command
    [openApiKeyChanger] with the input confirmed, a key in the reloaded
    configuration, and the panel open when the input box resolves and
    disposed while the request of the probe is pending; the TypeError of
    that case is not caught.  A command it has no case for does nothing.
    The four attachment commands post no request, and no other command
    changes the files, the images or the tracked file. *)
Theorem onDidReceiveMessage_dispatch (node : Node.t) (host : Answers)
    (message : Message) this net :
  let result := Extension.onDidReceiveMessage node host message this net in
  (∃ that shown outcome, result.1 = Normal (that, shown, outcome) ∧
     (command message ∉ storeCommands → same_attachments that this) ∧
     (outcome = Normal () ∨ outcome = Throw TypeError_webview) ∧
     (outcome = Throw TypeError_webview ↔
        command message = "openApiKeyChanger" ∧ is_Some (newKey host) ∧
        chatPanel this = true ∧ closed host = false ∧ disposed host = true ∧
        apiKey (updateConfig (reloaded host)) ≠ "")) ∧
  (command message ∈ storeCommands → result.2 = []) ∧
  (command message ∉ commands → result = (Normal (this, [], Normal ()), [])).
Proof.
  intros result. subst result. unfold Extension.onDidReceiveMessage.
  unfold commands, storeCommands. cbn [app].
  repeat case_bool_decide.
  - unfold bind.
    destruct (handleChatMessage_normal (text message) (model message)
                (resumed host (truthy (apiKey (claudeAPI this))) this) net)
      as [posted ->].
    simpl. split_and!; [|not_listed|listed].
    do 3 eexists. split_and!; [done| |by left|].
    + intros _. apply same_attachments_resumed.
    + split; [done|]. intros (? & _). congruence.
  - split_and!; [|done|listed].
    do 3 eexists. split_and!; [done|listed|by left|].
    split; [done|]. intros (? & _). congruence.
  - split_and!; [|done|listed].
    do 3 eexists. split_and!; [done|listed|by left|].
    split; [done|]. intros (? & _). congruence.
  - split_and!; [|done|listed].
    do 3 eexists. split_and!; [done|listed|by left|].
    split; [done|]. intros (? & _). congruence.
  - split_and!; [|done|listed].
    do 3 eexists. split_and!; [done|listed|by left|].
    split; [done|]. intros (? & _). congruence.
  - split_and!; [|done|listed].
    do 3 eexists. split_and!; [done|listed|by left|].
    split; [done|]. intros (? & _). congruence.
  - rewrite openApiKeyChanger_cases. split_and!; [|not_listed|listed].
    destruct (truthy (apiKey (updateConfig (reloaded host)))) eqn:Hkeyed;
      destruct (newKey host) as [entered|], (closed host), (chatPanel this) eqn:Hpanel,
        (disposed host);
      cbn [andb chatPanel onDidDispose set_chatPanel];
      do 3 eexists;
      (split; [done|split; [done|]]);
      first
        [ split; [by left|no_throw]
        | split; [by right|] ].
    split; [|done]. intros _. apply truthy_true in Hkeyed.
    split; [done|]. split; [by eexists|]. by split_and!.
  - unfold bind.
    destruct (checkApiKeyAccess_normal (claudeAPI this) net) as [models ->].
    simpl. split_and!; [|not_listed|listed].
    do 3 eexists. split_and!; [done| |by left|].
    + intros _. apply same_attachments_resumed.
    + split; [done|]. intros (? & _). congruence.
  - split_and!; [| |done].
    + do 3 eexists. split_and!; [done|done|by left|].
      split; [done|]. intros (? & _). congruence.
    + intros Hin. not_among Hin.
Qed.

End ChatPanel.

(** ** The first version of the extension *)

Section FirstVersion.

Import Axios.

Implicit Types (this : ClaudeAPI.t) (net : Network).

Lemma legacy_sendMessage_with_key this (messages : list Legacy.ClaudeMessage) net :
  ClaudeAPI.apiKey this ≠ "" →
  Legacy.sendMessage this messages net =
    (match net (Legacy.messageRequest this messages) with
     | Normal response =>
         match data_content response with
         | first :: _ => Normal first
         | [] => Throw (new_Error ("API Error: " +:+ message TypeError_text))
         end
     | Throw error =>
         Throw
           (if bool_decide (response_status error = Some 401)
            then new_Error
                   "Invalid API key. Please check your Anthropic API key in settings."
            else if bool_decide (response_status error = Some 429)
            then new_Error "Rate limit exceeded. Please try again later."
            else new_Error ("API Error: " +:+ message error))
     end,
     [Legacy.messageRequest this messages]).
Proof.
  intros Hkey%truthy_true. unfold Legacy.sendMessage. rewrite Hkey. simpl.
  unfold try_catch, bind, post, first_text.
  destruct (net _) as [[[|first rest]]|error]; simpl; [done|done|].
  by repeat case_bool_decide.
Qed.

(** X19: [sendMessage] of the first version: without a key it throws before
    posting; with a key it posts one request for the model of the
    configuration, tells apart a rejected key (401) and a rate limit (429),
    and reports every other failure, status 403 among them, with the message
    of the failure. *)
Theorem legacy_sendMessage_mapping this (messages : list Legacy.ClaudeMessage) net :
  let req := Legacy.messageRequest this messages in
  let result := Legacy.sendMessage this messages net in
  (ClaudeAPI.apiKey this = "" →
     result =
       (Throw (new_Error
                 "API key not configured. Please set your Anthropic API key in settings."),
        [])) ∧
  (ClaudeAPI.apiKey this ≠ "" →
     result.2 = [req] ∧
     Axios.model req = ClaudeAPI.model this ∧
     (∀ error, net req = Throw error →
        (response_status error = Some 401 →
           result.1 =
             Throw (new_Error
                      "Invalid API key. Please check your Anthropic API key in settings.")) ∧
        (response_status error = Some 429 →
           result.1 = Throw (new_Error "Rate limit exceeded. Please try again later.")) ∧
        (response_status error ∉ [Some 401; Some 429] →
           result.1 = Throw (new_Error ("API Error: " +:+ message error)))) ∧
     (∀ response first rest, net req = Normal response →
        data_content response = first :: rest → result.1 = Normal first)).
Proof.
  intros req result. subst req result. split.
  - intros Hkey%truthy_false. unfold Legacy.sendMessage. by rewrite Hkey.
  - intros Hkey. rewrite legacy_sendMessage_with_key by done. simpl.
    split_and!; [done|done| |by intros ? ? ? -> ->].
    intros error ->. split_and!.
    + intros ->. by rewrite bool_decide_eq_true_2.
    + intros ->. by repeat case_bool_decide.
    + rewrite !not_elem_of_cons. intros (? & ? & _).
      by rewrite !bool_decide_eq_false_2.
Qed.

(** X20: The chat handler of the first version ignores every command but
    [sendMessage]; for that one it never throws, sends the text as it is in
    a single user message, and posts exactly one message to the webview, the
    answer or the message of the failure. *)
Theorem legacy_chat_outcome this (command text : string) net :
  let result := Legacy.onDidReceiveMessage this command text net in
  (command ≠ "sendMessage" → result = (Normal [], [])) ∧
  (command = "sendMessage" →
     (∃ shown, result.1 = Normal [postMessage (receiveMessage shown)] ∨
               result.1 = Normal [postMessage (receiveError shown)]) ∧
     (ClaudeAPI.apiKey this = "" → result.2 = []) ∧
     (ClaudeAPI.apiKey this ≠ "" →
        ∃ req, result.2 = [req] ∧
          Axios.messages req =
            [ {| ClaudeMessage.role := user;
                 ClaudeMessage.content := content_string text |} ])).
Proof.
  intros result. subst result. unfold Legacy.onDidReceiveMessage. split.
  - intros Hother. by rewrite bool_decide_eq_false_2.
  - intros ->. rewrite bool_decide_eq_true_2 by done.
    unfold try_catch, bind.
    destruct (decide (ClaudeAPI.apiKey this = "")) as [Hkey|Hkey].
    + pose proof Hkey as Hfalsy%truthy_false.
      unfold Legacy.sendMessage. rewrite Hfalsy. simpl.
      split_and!; [|done|done]. eexists. by right.
    + rewrite legacy_sendMessage_with_key by done.
      split_and!.
      * destruct (net _) as [[[|first rest]]|error]; simpl; eexists;
          (by left) || (by right).
      * done.
      * intros _. eexists.
        destruct (net _) as [[[|first rest]]|error]; simpl; by rewrite ?app_nil_r.
Qed.

End FirstVersion.

(** ** The further properties at the sample inputs *)

Section MoreInstances.

Import Axios ClaudeAPI ClaudeCodeAssistant Extension.

Lemma removeAttachedImage_spec_two_logos :
  attachedImages Scenario.twins = [Sample.logo; Sample.logo] ∧
  attachedImages (removeAttachedImage "photo.jpg" Scenario.twins).1
  = [Sample.logo; Sample.logo] ∧
  attachedImages (removeAttachedImage "logo.png" Scenario.twins).1 = [].
Proof.
  split_and!; [done| |].
  - destruct (removeAttachedImage_spec "photo.jpg" Scenario.twins) as (_ & Hkept & _).
    apply Hkept. by repeat constructor.
  - by destruct (removeAttachedImage_spec "logo.png" Scenario.twins) as (-> & _).
Defined.

Lemma removeAttachedFile_all_doubled :
  paths Scenario.doubled = [Some "/work/a.py"; Some "/work/a.py"] ∧
  paths (removeAttachedFile "/work/b.ts" Scenario.doubled).1
  = [Some "/work/a.py"; Some "/work/a.py"] ∧
  paths (removeAttachedFile "/work/a.py" Scenario.doubled).1 = [].
Proof.
  split_and!; [done| |].
  - destruct (removeAttachedFile_all "/work/b.ts" Scenario.doubled) as (_ & Hkept & _).
    unfold paths. rewrite Hkept; [done|]. by repeat constructor.
  - destruct (removeAttachedFile_all "/work/a.py" Scenario.doubled) as (Hfiles & _).
    unfold paths. by rewrite Hfiles.
Defined.

Lemma reachable_files_complete_a_then_b :
  currentActiveFile Sample.with_a = None ∧
  paths (attachCurrentFile Sample.posix Sample.b_ts Sample.with_a).1
  = [Some "/work/a.py"; Some "/work/b.ts"].
Proof.
  split; [done|].
  destruct (reachable_files_complete Sample.posix
              [attachFile (Some ["/work/a.py"]) (Sample.disk "print(1)")] Sample.keyed)
    as (_ & Hfocus).
  unfold paths, Sample.with_a. by rewrite (Hfocus Sample.b_ts eq_refl).
Defined.

Lemma reachable_tracked_attached_a :
  currentActiveFile Sample.focused_a = Some "/work/a.py" ∧
  ∃ f, f ∈ attachedFiles Sample.focused_a ∧ AttachedFile.path f = Some "/work/a.py".
Proof.
  split; [done|].
  by apply (reachable_tracked_attached Sample.posix
              [didChangeActiveTextEditor true (Some Sample.a_py)] Sample.keyed).
Defined.

Lemma handle_posts_attachments_chatting :
  chatPanel Scenario.chatting = true ∧
  (handle Sample.posix (didChangeActiveTextEditor true (Some Sample.a_py))
     Scenario.chatting).2
  = [postMessage (updateAttachments [("a.py", Some "/work/a.py")] [])].
Proof.
  split; [done|].
  destruct (handle_posts_attachments Sample.posix
              (didChangeActiveTextEditor true (Some Sample.a_py)) Scenario.chatting)
    as (_ & Hopen & _).
  by rewrite Hopen.
Defined.

Lemma conforming_posix : Extension.conforming Sample.posix.
Proof.
  split.
  - intros p. unfold Sample.posix. simpl.
    repeat case_bool_decide; (by left) || (right; by eexists).
  - by intros ext.
Qed.

Lemma attached_media_types_bmp :
  Extension.conforming Sample.posix ∧
  Sample.logo ∈ attachedImages Scenario.two_logos ∧
  (∃ mediaType, AttachedImage.mediaType Sample.logo = str mediaType ∧
     mediaType ∈ ["image/png"; "image/jpeg"; "image/gif"; "image/webp"]) ∧
  getMediaType ".bmp" = str "image/jpeg" ∧
  getMediaType "constructor" = inherited "constructor".
Proof.
  destruct (attached_media_types Sample.posix)
    as (_ & Hdefault & Hinherited & _ & Hstores).
  destruct (Hstores conforming_posix) as (Himages & _).
  split_and!.
  - apply conforming_posix.
  - by left.
  - apply (Himages
             [ attachImage 3 (Some ["/pics/logo.png"]) (Sample.disk "iVBORw0KGgo=");
               attachImage 3 (Some ["/old/logo.png"]) (Sample.disk "R0lGODlh") ]
             Sample.keyed).
    by left.
  - apply Hdefault; intros Hin; not_among Hin.
  - apply Hinherited. by_evaluation.
Defined.

Lemma focus_changes_track_one_a_b :
  (length
     (attachedFiles
        (run Sample.posix
           [ didChangeActiveTextEditor true (Some Sample.a_py);
             didChangeActiveTextEditor true (Some Sample.b_ts) ]
           (new Sample.keyed))) ≤ 1)%nat.
Proof.
  destruct (focus_changes_track_one Sample.posix
              [ didChangeActiveTextEditor true (Some Sample.a_py);
                didChangeActiveTextEditor true (Some Sample.b_ts) ]
              Sample.keyed)
    as [[Hfiles _]|(editor & Hfiles & _)]; [by repeat constructor|..].
  - rewrite Hfiles. simpl. lia.
  - rewrite Hfiles. simpl. lia.
Defined.

Lemma removeAttachedImage_makes_room_logo :
  Z.of_nat (length (attachedImages Sample.with_logo)) ≤ 1 ∧
  AttachedImage.data
    <$> attachedImages
          (handleImageAttachment Sample.posix 1 (Some ["/old/logo.png"])
             (Sample.disk "R0lGODlh")
             (removeAttachedImage (AttachedImage.name Sample.logo) Sample.with_logo).1).1
  = ["R0lGODlh"].
Proof.
  split; [by vm_compute|].
  by rewrite (removeAttachedImage_makes_room Sample.posix 1 (Some ["/old/logo.png"])
                (Sample.disk "R0lGODlh") "/old/logo.png" "R0lGODlh" Sample.logo
                Sample.with_logo);
    [|by left|by vm_compute|..].
Defined.

Lemma attachment_failures_unreadable :
  handleFileAttachment Sample.posix (Some ["/work/a.py"]) Scenario.unreadable
    Sample.with_a
  = (Sample.with_a, [showErrorMessage "Failed to read file"]).
Proof.
  destruct (attachment_failures Sample.posix 3 (Some ["/work/a.py"])
              Scenario.unreadable Sample.with_a) as (_ & _ & _ & Hread).
  by destruct (Hread "/work/a.py" (new_Error "EACCES: permission denied")
                 eq_refl eq_refl).
Defined.

Lemma augmentedText_lists_files_a :
  attachedFiles Scenario.doubled ≠ [] ∧
  chatContent "explain" Scenario.doubled
  = content_string
      ("explain" +:+ LF +:+ LF +:+ "**Attached Files:**" +:+ LF
         +:+ LF +:+ "**a.py** (python):" +:+ LF
         +:+ "```python" +:+ LF +:+ "print(1)" +:+ LF +:+ "```" +:+ LF
         +:+ LF +:+ "**a.py** (python):" +:+ LF
         +:+ "```python" +:+ LF +:+ "print(1)" +:+ LF +:+ "```" +:+ LF).
Proof.
  split; [done|].
  destruct (augmentedText_lists_files "explain" Scenario.doubled)
    as (Htext & _ & Hcontent & _); [done|].
  rewrite Hcontent by done. rewrite Htext. reflexivity.
Defined.

Lemma handleChatMessage_outcome_unkeyed :
  handleChatMessage "hello" "" (set_chatPanel true (new Sample.unkeyed))
    (Sample.answering "Hi")
  = (Normal
       [postMessage
          (receiveError "API key not configured. Please set your Anthropic API key.")],
     []).
Proof.
  destruct (handleChatMessage_outcome "hello" "" (set_chatPanel true (new Sample.unkeyed))
              (Sample.answering "Hi")) as (_ & _ & Hnokey & _).
  by rewrite Hnokey.
Defined.

Lemma configured_request_default_model :
  ∃ req,
    (sendMessage (updateConfig Scenario.only_key) [] (Some "") (Sample.answering "Hi")).2
    = [req] ∧
    Axios.model req = "claude-3-5-haiku-20241022" ∧
    max_tokens req = 200000.
Proof.
  destruct (configured_request Scenario.only_key [] (Some "") (Sample.answering "Hi"))
    as (Hkey & _).
  destruct (Hkey "sk-ant-test" eq_refl) as (req & Hreq & _ & _ & Htokens & _ & Hmodel);
    [done|].
  exists req. split_and!; [done| |done]. apply Hmodel. by right.
Defined.

Lemma maskedKey_discloses_abc : maskedKey "abc" = "abc...abc".
Proof.
  destruct maskedKey_discloses as (_ & Hshort & _).
  apply Hshort; [done|]. simpl. lia.
Defined.

Lemma promptCommand_outcomes_no_editor :
  explainCode None (new Sample.keyed) (Sample.answering "Hi")
  = (Normal [ui (showErrorMessage "No active editor found")], []).
Proof.
  by destruct (promptCommand_outcomes "Claude is analyzing your code..."
                 "Please explain this " " code:" "Code Explanation"
                 (new Sample.keyed) (Sample.answering "Hi")) as (_ & Hnone & _).
Defined.

Lemma promptCommand_failures_no_key :
  ActiveEditor.selectedText Scenario.selection ≠ "" ∧
  explainCode (Some Scenario.selection) (new Sample.unkeyed) (Sample.answering "Hi")
  = (Normal [ withProgress "Claude is analyzing your code...";
              unhandledRejection ConfigurationError ], []).
Proof.
  split; [done|].
  destruct (promptCommand_failures "Claude is analyzing your code..."
              "Please explain this " " code:" "Code Explanation"
              Scenario.selection (new Sample.unkeyed) (Sample.answering "Hi"))
    as (_ & Hnokey & _); [done|].
  by apply Hnokey.
Defined.

Lemma openChat_spec_open :
  chatPanel Scenario.chatting = true ∧
  openChat Scenario.chatting (Sample.answering "Hi")
  = (Normal (Scenario.chatting, [reveal]), []).
Proof.
  split; [done|].
  destruct (openChat_spec Scenario.chatting (Sample.answering "Hi")) as (Hopen & _).
  by apply Hopen.
Defined.

Lemma openApiKeyChanger_spec_dismissed :
  openApiKeyChanger "sk-ant-test" None Scenario.only_key false Scenario.chatting
    (Sample.answering "Hi")
  = (Normal (Scenario.chatting, [showInputBox "Current: sk-ant-t...test"], Normal ()),
     []) ∧
  chatPanel Scenario.chatting = true ∧
  ∃ that shown,
    (openApiKeyChanger "" (Some "sk-ant-test") Scenario.only_key true
       Scenario.chatting (Sample.answering "Hi")).1
    = Normal (that, shown, Throw TypeError_webview) ∧
    chatPanel that = false ∧ length shown = 3%nat.
Proof.
  split_and!; [|done|].
  - destruct (openApiKeyChanger_spec "sk-ant-test" None Scenario.only_key false
                Scenario.chatting (Sample.answering "Hi")) as (Hnone & _).
    by rewrite Hnone.
  - destruct (openApiKeyChanger_spec "" (Some "sk-ant-test") Scenario.only_key true
                Scenario.chatting (Sample.answering "Hi")) as (_ & Hsome).
    destruct (Hsome "sk-ant-test" eq_refl)
      as (that & shown & outcome & Hresult & _ & _ & _ & _ & Hopen).
    destruct (Hopen eq_refl) as (_ & _ & Hdisposed).
    destruct (Hdisposed eq_refl) as (_ & Hclosed & Hshown & Houtcome & _); [done|].
    exists that, shown. by rewrite Hresult, Houtcome.
Defined.

Lemma onDidReceiveMessage_dispatch_ping :
  (Extension.command Scenario.ping ∉ commands) ∧
  Extension.onDidReceiveMessage Sample.posix Scenario.answers Scenario.ping
    Scenario.chatting (Sample.answering "Hi")
  = (Normal (Scenario.chatting, [], Normal ()), []) ∧
  ∃ that shown,
    (Extension.onDidReceiveMessage Sample.posix Scenario.closing Scenario.changeKey
       Scenario.chatting (Sample.answering "Hi")).1
    = Normal (that, shown, Throw TypeError_webview).
Proof.
  assert (Extension.command Scenario.ping ∉ commands) as Hnew.
  { intros Hin. not_among Hin. }
  split_and!; [done| |].
  - destruct (onDidReceiveMessage_dispatch Sample.posix Scenario.answers Scenario.ping
                Scenario.chatting (Sample.answering "Hi")) as (_ & _ & Hignored).
    by apply Hignored.
  - destruct (onDidReceiveMessage_dispatch Sample.posix Scenario.closing
                Scenario.changeKey Scenario.chatting (Sample.answering "Hi"))
      as ((that & shown & outcome & Hresult & _ & _ & Hthrows) & _).
    exists that, shown. rewrite Hresult.
    destruct Hthrows as [_ Hback]. rewrite Hback; [done|].
    split; [done|]. split; [by eexists|]. by split.
Defined.

Lemma legacy_sendMessage_mapping_403 :
  ClaudeAPI.apiKey Sample.keyed ≠ "" ∧
  (Legacy.sendMessage Sample.keyed [] (Sample.rejecting 403)).1
  = Throw (new_Error "API Error: Request failed with status code 403").
Proof.
  split; [done|].
  destruct (legacy_sendMessage_mapping Sample.keyed [] (Sample.rejecting 403))
    as (_ & Hkeyed).
  destruct Hkeyed as (_ & _ & Hfail & _); [done|].
  destruct (Hfail _ eq_refl) as (_ & _ & Hother).
  rewrite Hother; [done|].
  intros Hin. repeat (apply elem_of_cons in Hin as [Hin|Hin]; [done|]).
  by apply elem_of_nil in Hin.
Defined.

Lemma legacy_chat_outcome_other :
  Legacy.onDidReceiveMessage Sample.keyed "attachFile" "" (Sample.answering "Hi")
  = (Normal [], []).
Proof.
  destruct (legacy_chat_outcome Sample.keyed "attachFile" "" (Sample.answering "Hi"))
    as (Hother & _).
  by apply Hother.
Defined.

End MoreInstances.
